(** * Plant health monitor: the session / analysis state machine of [App.tsx]

    A shallow embedding of the React component [App] of [src/App.tsx]: its
    state hooks, the three [localStorage] blobs it reads and writes, and its
    event handlers, followed by the properties of the account registry, the
    session, the analysis pipeline and the history store.

    Conventions of the embedding.
    - A [useState] cell is a field of [AppState]; [setX v] is the update of
      that field.  Handlers are functions [AppState -> AppState].
    - [localStorage] holds JSON text.  A blob is kept as the value that was
      handed to [JSON.stringify], and a missing key is [None]; reading a blob
      back with [JSON.parse] gives that value as JSON carries it, which
      differs from it in the numbers only ([jsonNumber]).
    - The write of line 89 sits in the [try] of [handleAnalyzeClick], and an
      attempt can end with that write throwing ([PersistRejected]).  The
      writes of the other handlers are outside any [try]; they are taken to
      succeed.
    - What the handlers get from outside is an argument: the string produced
      by the [FileReader], the way the two awaited promises settle, and the
      readings of the wall clock ([Date.now()], [new Date()]).
    - The async handler [handleAnalyzeClick] is cut at its suspension: the
      part run at the click, and the part run when the promise settles, which
      uses the values the closure captured at the click.  [step] and [run]
      take an attempt from click to exit with nothing in between; [react] and
      [play] let any other event, a second click included, come between the
      click and the settling of an attempt.  A click runs the handler of the
      latest render. *)

From Stdlib Require Import List String Ascii ZArith Bool Lia Sorted PrimFloat.
From Stdlib Require Import DecimalString DecimalZ.
Import ListNotations.
Open Scope string_scope.

(* ================================================================= *)
(** ** Data model (the interfaces of [types.ts]) *)

(** [role: 'user' | 'admin'] *)
Inductive Role : Type := user | admin.

(** What a field declared [number] holds at run time in the values the
    component handles: a double, or the [null] that [JSON.parse] gives back
    for a double JSON text cannot carry. *)
Inductive JsNumber : Type :=
| Number (f : float)
| Null.

(** [interface AnalysisResult]; [confidence_score] is a JS number. *)
Record AnalysisResult : Type := mkAnalysisResult {
  plant_name : string;
  is_healthy : bool;
  disease_name : string;
  confidence_score : JsNumber;
  description : string;
  possible_causes : list string;
  recommended_actions : list string
}.

(** [interface User]: the principal kept in the session. *)
Module User.
Record t : Type := mk { id : string; email : string; role : Role }.
End User.

(** The objects of the [plant_health_users] blob: a principal with its
    password (lines 16-21 and 119-126). *)
Module Account.
Record t : Type := mk {
  id : string; email : string; password : string; role : Role
}.
End Account.

(** [interface HistoricalAnalysis].  [timestamp] is the instant, in
    milliseconds since the epoch, that the ISO-8601 text written by
    [new Date().toISOString()] denotes. *)
Module HistoricalAnalysis.
Record t : Type := mk {
  id : string;
  userEmail : string;
  analysis : AnalysisResult;
  timestamp : Z;
  imageUrl : string
}.
End HistoricalAnalysis.

(** The three keys of [localStorage] the component uses. *)
Record LocalStorage : Type := mkLocalStorage {
  plant_health_users : option (list Account.t);
  plant_health_currentUser : option User.t;
  plant_health_analyses : option (list HistoricalAnalysis.t)
}.

(** The state hooks of [App] (lines 30-36) together with the store. *)
Record AppState : Type := mkAppState {
  imagePreview : option string;
  analysisResult : option AnalysisResult;
  isLoading : bool;
  error : option string;
  currentUser : option User.t;
  historicalAnalyses : list HistoricalAnalysis.t;
  authError : option string;
  localStorage : LocalStorage
}.

(* ================================================================= *)
(** ** State setters *)

Definition setImagePreview (v : option string) (st : AppState) : AppState :=
  mkAppState v (analysisResult st) (isLoading st) (error st) (currentUser st)
             (historicalAnalyses st) (authError st) (localStorage st).

Definition setAnalysisResult (v : option AnalysisResult) (st : AppState) : AppState :=
  mkAppState (imagePreview st) v (isLoading st) (error st) (currentUser st)
             (historicalAnalyses st) (authError st) (localStorage st).

Definition setIsLoading (v : bool) (st : AppState) : AppState :=
  mkAppState (imagePreview st) (analysisResult st) v (error st) (currentUser st)
             (historicalAnalyses st) (authError st) (localStorage st).

Definition setError (v : option string) (st : AppState) : AppState :=
  mkAppState (imagePreview st) (analysisResult st) (isLoading st) v (currentUser st)
             (historicalAnalyses st) (authError st) (localStorage st).

Definition setCurrentUser (v : option User.t) (st : AppState) : AppState :=
  mkAppState (imagePreview st) (analysisResult st) (isLoading st) (error st) v
             (historicalAnalyses st) (authError st) (localStorage st).

Definition setHistoricalAnalyses (v : list HistoricalAnalysis.t) (st : AppState) : AppState :=
  mkAppState (imagePreview st) (analysisResult st) (isLoading st) (error st)
             (currentUser st) v (authError st) (localStorage st).

Definition setAuthError (v : option string) (st : AppState) : AppState :=
  mkAppState (imagePreview st) (analysisResult st) (isLoading st) (error st)
             (currentUser st) (historicalAnalyses st) v (localStorage st).

Definition withLocalStorage (f : LocalStorage -> LocalStorage) (st : AppState) : AppState :=
  mkAppState (imagePreview st) (analysisResult st) (isLoading st) (error st)
             (currentUser st) (historicalAnalyses st) (authError st)
             (f (localStorage st)).

(** [localStorage.setItem(key, JSON.stringify(v))] and [removeItem], per key. *)
Definition setItem_users (v : list Account.t) (ls : LocalStorage) : LocalStorage :=
  mkLocalStorage (Some v) (plant_health_currentUser ls) (plant_health_analyses ls).

Definition setItem_currentUser (v : User.t) (ls : LocalStorage) : LocalStorage :=
  mkLocalStorage (plant_health_users ls) (Some v) (plant_health_analyses ls).

Definition removeItem_currentUser (ls : LocalStorage) : LocalStorage :=
  mkLocalStorage (plant_health_users ls) None (plant_health_analyses ls).

Definition setItem_analyses (v : list HistoricalAnalysis.t) (ls : LocalStorage) : LocalStorage :=
  mkLocalStorage (plant_health_users ls) (plant_health_currentUser ls) (Some v).

(** [JSON.parse(localStorage.getItem('plant_health_users') || '[]')] *)
Definition getUsers (ls : LocalStorage) : list Account.t :=
  match plant_health_users ls with
  | Some users => users
  | None => []
  end.

(** [JSON.parse(JSON.stringify(x))] for a number: a NaN and the infinities
    are written as [null], both zeros as [0], and every other double is
    written with digits that read back to it. *)
Definition jsonNumber (x : JsNumber) : JsNumber :=
  match x with
  | Null => Null
  | Number f =>
      if is_nan f || is_infinity f then Null
      else if is_zero f then Number zero
      else Number f
  end.

(** The same for a result and for a record of the history: strings,
    booleans and lists of strings come back as they were written. *)
Definition jsonResult (r : AnalysisResult) : AnalysisResult :=
  mkAnalysisResult (plant_name r) (is_healthy r) (disease_name r)
                   (jsonNumber (confidence_score r)) (description r)
                   (possible_causes r) (recommended_actions r).

Definition jsonRecord (r : HistoricalAnalysis.t) : HistoricalAnalysis.t :=
  HistoricalAnalysis.mk (HistoricalAnalysis.id r) (HistoricalAnalysis.userEmail r)
                        (jsonResult (HistoricalAnalysis.analysis r))
                        (HistoricalAnalysis.timestamp r)
                        (HistoricalAnalysis.imageUrl r).

Definition jsonAnalyses (h : list HistoricalAnalysis.t) : list HistoricalAnalysis.t :=
  map jsonRecord h.

(* ================================================================= *)
(** ** JavaScript helpers the handlers use *)

(** Template-literal rendering of an integral number: decimal digits, with a
    leading minus sign for a negative one. *)
Definition string_of_Z (z : Z) : string := NilEmpty.string_of_int (Z.to_int z).

(** Truthiness of a [string | null]: [null] and the empty string are falsy. *)
Definition truthy (s : option string) : bool :=
  match s with
  | None => false
  | Some EmptyString => false
  | Some _ => true
  end.

(** [s.indexOf(pat)]: the position of the first occurrence, or -1. *)
Definition indexOf (s pat : string) : Z :=
  match index 0 pat s with
  | Some n => Z.of_nat n
  | None => (-1)%Z
  end.

(** [s.substring(a, b)]: both ends clamped to [0, length], swapped when
    out of order. *)
Definition js_substring (s : string) (a b : Z) : string :=
  let len := Z.of_nat (String.length s) in
  let clamp := fun x => Z.max 0 (Z.min x len) in
  let lo := Z.min (clamp a) (clamp b) in
  let hi := Z.max (clamp a) (clamp b) in
  substring (Z.to_nat lo) (Z.to_nat (hi - lo)) s.

(** What a [catch] clause can receive: an [Error] with its message, or any
    other thrown value. *)
Inductive Thrown : Type :=
| ThrownError (message : string)
| ThrownOther.

(** [err instanceof Error ? err.message : "An unknown error ..."] (line 93) *)
Definition errorMessage (err : Thrown) : string :=
  match err with
  | ThrownError message => message
  | ThrownOther => "An unknown error occurred during analysis."
  end.

(* ================================================================= *)
(** ** Start-up: lines 14-26 and the mount effect, lines 38-49 *)

Definition adminUser : Account.t :=
  Account.mk "admin-001" "admin@plant.health" "admin123" admin.

Definition initializeMockUsers (ls : LocalStorage) : LocalStorage :=
  match plant_health_users ls with
  | None => setItem_users [adminUser] ls
  | Some _ => ls
  end.

(** The values the hooks are created with. *)
Definition initialState (ls : LocalStorage) : AppState :=
  mkAppState None None false None None [] None ls.

(** The effect run once after the first render. *)
Definition mount (st : AppState) : AppState :=
  let st1 :=
    match plant_health_currentUser (localStorage st) with
    | Some loggedInUser => setCurrentUser (Some loggedInUser) st
    | None => st
    end in
  match plant_health_analyses (localStorage st1) with
  | Some storedAnalyses => setHistoricalAnalyses (jsonAnalyses storedAnalyses) st1
  | None => st1
  end.

(** Loading the page over a store: module initialisation, then the mount. *)
Definition boot (ls : LocalStorage) : AppState :=
  mount (initialState (initializeMockUsers ls)).

(** The store of a first run: no key present. *)
Definition emptyStorage : LocalStorage := mkLocalStorage None None None.

(* ================================================================= *)
(** ** The image and analysis handlers, lines 52-97 *)

(** [handleImageSelect]: the body of [reader.onloadend].  [result] is
    [reader.result]: the data URI, or [null] when the read failed. *)
Definition handleImageSelect (result : option string) (st : AppState) : AppState :=
  setError None (setAnalysisResult None (setImagePreview result st)).

(** The values [handleAnalyzeClick] has captured from the render in which it
    was created (its dependency list, line 97), once the guard of line 63
    has established that both are present. *)
Record Closure : Type := mkClosure {
  c_imagePreview : string;
  c_currentUser : User.t;
  c_historicalAnalyses : list HistoricalAnalysis.t
}.

(** The arguments of a call [analyzePlantHealth(base64Image, mimeType)]. *)
Record InferenceCall : Type := mkInferenceCall {
  base64Image : string;
  mimeType : string
}.

(** The two wall-clock readings of lines 80 and 83. *)
Record Clock : Type := mkClock {
  Date_now : Z;   (* Date.now() *)
  new_Date : Z    (* the instant of new Date() *)
}.

(** Lines 63-70: what runs at the click, up to the first [await].  The
    second component is the suspended continuation, absent when the guard
    returned. *)
Definition analyzeClick (st : AppState) : AppState * option Closure :=
  match imagePreview st, currentUser st with
  | Some img, Some u =>
      if truthy (Some img) then
        (setAnalysisResult None (setError None (setIsLoading true st)),
         Some (mkClosure img u (historicalAnalyses st)))
      else (setError (Some "Please select an image first.") st, None)
  | _, _ => (setError (Some "Please select an image first.") st, None)
  end.

(** Line 74, and the call of line 75 made once [fileToBase64] has resolved. *)
Definition mimeTypeOf (img : string) : string :=
  js_substring img (indexOf img ":" + 1) (indexOf img ";").

Definition inferenceCall (c : Closure) (base64 : string) : InferenceCall :=
  mkInferenceCall base64 (mimeTypeOf (c_imagePreview c)).

(** [`analysis-${Date.now()}`] *)
Definition analysisId (now : Z) : string := "analysis-" ++ string_of_Z now.

(** Lines 79-85. *)
Definition newAnalysis (c : Closure) (result : AnalysisResult) (clk : Clock)
  : HistoricalAnalysis.t :=
  HistoricalAnalysis.mk (analysisId (Date_now clk))
                        (User.email (c_currentUser c))
                        result
                        (new_Date clk)
                        (c_imagePreview c).

(** Lines 76-89 and the [finally]: [analyzePlantHealth] resolved. *)
Definition analyzeResolved (c : Closure) (result : AnalysisResult) (clk : Clock)
                           (st : AppState) : AppState :=
  let st1 := setAnalysisResult (Some result) st in
  let updatedAnalyses := newAnalysis c result clk :: c_historicalAnalyses c in
  let st2 := setHistoricalAnalyses updatedAnalyses st1 in
  let st3 := withLocalStorage (setItem_analyses updatedAnalyses) st2 in
  setIsLoading false st3.

(** Lines 91-96: one of the awaited promises rejected. *)
Definition analyzeRejected (err : Thrown) (st : AppState) : AppState :=
  setIsLoading false (setError (Some (errorMessage err)) st).

(** Lines 76-88, then line 89 throws, then lines 91-96: the inference
    resolved and the new history was set, but writing it to the store
    failed. *)
Definition analyzePersistRejected (c : Closure) (result : AnalysisResult) (clk : Clock)
                                  (err : Thrown) (st : AppState) : AppState :=
  let st1 := setAnalysisResult (Some result) st in
  let updatedAnalyses := newAnalysis c result clk :: c_historicalAnalyses c in
  let st2 := setHistoricalAnalyses updatedAnalyses st1 in
  setIsLoading false (setError (Some (errorMessage err)) st2).

(** How the [try] block of one attempt ends. *)
Inductive Outcome : Type :=
| Base64Rejected (err : Thrown)                           (* line 73 throws *)
| InferenceRejected (base64 : string) (err : Thrown)      (* line 75 throws *)
| InferenceResolved (base64 : string) (result : AnalysisResult)
| PersistRejected (base64 : string) (result : AnalysisResult) (err : Thrown).
                                                          (* line 89 throws *)

Definition settle (c : Closure) (o : Outcome) (clk : Clock) (st : AppState) : AppState :=
  match o with
  | Base64Rejected err => analyzeRejected err st
  | InferenceRejected _ err => analyzeRejected err st
  | InferenceResolved _ result => analyzeResolved c result clk st
  | PersistRejected _ result err => analyzePersistRejected c result clk err st
  end.

(** The calls of the inference capability an attempt makes. *)
Definition callsMade (c : Closure) (o : Outcome) : list InferenceCall :=
  match o with
  | Base64Rejected _ => []
  | InferenceRejected base64 _ => [inferenceCall c base64]
  | InferenceResolved base64 _ => [inferenceCall c base64]
  | PersistRejected base64 _ _ => [inferenceCall c base64]
  end.

(** [handleAnalyzeClick] run from click to exit with nothing in between. *)
Definition handleAnalyzeClick (o : Outcome) (clk : Clock) (st : AppState) : AppState :=
  match analyzeClick st with
  | (st1, Some c) => settle c o clk st1
  | (st1, None) => st1
  end.

(* ================================================================= *)
(** ** The session handlers, lines 99-139 *)

Definition userData (id email : string) (role : Role) : User.t :=
  User.mk id email role.

Definition handleLogin (email password : string) (st : AppState) : AppState :=
  let st0 := setAuthError None st in
  let users := getUsers (localStorage st0) in
  match find (fun u => (Account.email u =? email) && (Account.password u =? password))
             users with
  | Some u =>
      let ud := userData (Account.id u) (Account.email u) (Account.role u) in
      withLocalStorage (setItem_currentUser ud) (setCurrentUser (Some ud) st0)
  | None => setAuthError (Some "Invalid email or password.") st0
  end.

(** [`user-${Date.now()}`] *)
Definition userId (now : Z) : string := "user-" ++ string_of_Z now.

Definition handleRegister (email password : string) (now : Z) (st : AppState) : AppState :=
  let st0 := setAuthError None st in
  let users := getUsers (localStorage st0) in
  if existsb (fun u => Account.email u =? email) users then
    setAuthError (Some "An account with this email already exists.") st0
  else
    let newUser := Account.mk (userId now) email password user in
    let st1 := withLocalStorage (setItem_users (users ++ [newUser])) st0 in
    let ud := userData (Account.id newUser) (Account.email newUser) (Account.role newUser) in
    withLocalStorage (setItem_currentUser ud) (setCurrentUser (Some ud) st1).

Definition handleLogout (st : AppState) : AppState :=
  withLocalStorage removeItem_currentUser (setCurrentUser None st).

(* ================================================================= *)
(** ** The rendered surface, lines 142-187 *)

(** The component chosen by the render, with the props it is given. *)
Inductive Surface : Type :=
| AuthPage (error : option string)
| AdminDashboard (headerUser : User.t) (analyses : list HistoricalAnalysis.t)
| UserWorkspace (headerUser : User.t)
                (imagePreview : option string) (isLoading : bool)
                (result : option AnalysisResult) (error : option string)
                (hasImage : bool).

Definition render (st : AppState) : Surface :=
  match currentUser st with
  | None => AuthPage (authError st)
  | Some u =>
      match User.role u with
      | admin => AdminDashboard u (historicalAnalyses st)
      | user => UserWorkspace u (imagePreview st) (isLoading st)
                              (analysisResult st) (error st)
                              (truthy (imagePreview st))
      end
  end.

(** The history sequence a surface is handed, if it is handed one. *)
Definition analysesProp (s : Surface) : option (list HistoricalAnalysis.t) :=
  match s with
  | AdminDashboard _ analyses => Some analyses
  | AuthPage _ => None
  | UserWorkspace _ _ _ _ _ _ => None
  end.

(* ================================================================= *)
(** ** Runs: sequences of handler invocations *)

(** Operations run one at a time: an [Analyze] is an attempt taken from the
    click to its exit with no other handler in between.  Attempts that
    overlap with other events are the matter of [react] and [play] below,
    of which [run] is the special case [run_play]. *)
Inductive Op : Type :=
| ImageSelect (result : option string)
| Analyze (o : Outcome) (clk : Clock)
| Login (email password : string)
| Register (email password : string) (now : Z)
| Logout.

Definition step (st : AppState) (op : Op) : AppState :=
  match op with
  | ImageSelect result => handleImageSelect result st
  | Analyze o clk => handleAnalyzeClick o clk st
  | Login email password => handleLogin email password st
  | Register email password now => handleRegister email password now st
  | Logout => handleLogout st
  end.

Definition run (st : AppState) (ops : list Op) : AppState := fold_left step ops st.

(** One page load over a store and what it leaves in the store; a sequence
    of page loads. *)
Definition session (ls : LocalStorage) (ops : list Op) : LocalStorage :=
  localStorage (run (boot ls) ops).

Definition sessions (ls : LocalStorage) (loads : list (list Op)) : LocalStorage :=
  fold_left session loads ls.

(** The record an operation adds to the history, if it adds one: an
    analysis that passes the guard and whose inference resolves (whether or
    not the record can then be written to the store). *)
Definition created (st : AppState) (op : Op) : option HistoricalAnalysis.t :=
  match op with
  | Analyze (InferenceResolved _ result) clk
  | Analyze (PersistRejected _ result _) clk =>
      match snd (analyzeClick st) with
      | Some c => Some (newAnalysis c result clk)
      | None => None
      end
  | _ => None
  end.

(** The records created along a run, oldest first. *)
Fixpoint createdAlong (st : AppState) (ops : list Op) : list HistoricalAnalysis.t :=
  match ops with
  | [] => []
  | op :: ops' =>
      match created st op with
      | Some r => r :: createdAlong (step st op) ops'
      | None => createdAlong (step st op) ops'
      end
  end.

(** The number an id of the form [analysis-<n>] carries. *)
Definition idStamp (id : string) : option Z :=
  if prefix "analysis-" id then
    match NilEmpty.int_of_string (substring 9 (String.length id - 9) id) with
    | Some d => Some (Z.of_int d)
    | None => None
    end
  else None.

(** [a] is an id with a smaller number than the id [b]. *)
Definition idLt (a b : string) : Prop :=
  exists x y, idStamp a = Some x /\ idStamp b = Some y /\ (x < y)%Z.

(** The thrown value, when the attempt ends because one of the two awaited
    promises (the decoding, the inference) rejected. *)
Definition failure (o : Outcome) : option Thrown :=
  match o with
  | Base64Rejected err => Some err
  | InferenceRejected _ err => Some err
  | InferenceResolved _ _ => None
  | PersistRejected _ _ _ => None
  end.

(** The [Date.now()] readings that went into the ids created along a run,
    oldest first. *)
Fixpoint idReadingsAlong (st : AppState) (ops : list Op) : list Z :=
  match ops with
  | [] => []
  | op :: ops' =>
      match created st op, op with
      | Some _, Analyze _ clk => Date_now clk :: idReadingsAlong (step st op) ops'
      | _, _ => idReadingsAlong (step st op) ops'
      end
  end.

(** The head of a history carries a timestamp no earlier than any other. *)
Definition newestDominates (h : list HistoricalAnalysis.t) : Prop :=
  match h with
  | [] => True
  | r :: older =>
      Forall (fun o => (HistoricalAnalysis.timestamp o <= HistoricalAnalysis.timestamp r)%Z)
             older
  end.

(** At most one of the captured result and the captured error is present. *)
Definition atMostOne (st : AppState) : Prop :=
  analysisResult st = None \/ error st = None.

(** The registry holds a record of role [admin]. *)
Definition hasAdmin (ls : LocalStorage) : Prop :=
  exists a, In a (getUsers ls) /\ Account.role a = admin.

(** The principal a credential record stands for (lines 104 and 131). *)
Definition principalOf (a : Account.t) : User.t :=
  userData (Account.id a) (Account.email a) (Account.role a).

(** The records of a history that carry the email of a principal. *)
Definition ownRecords (p : User.t) (h : list HistoricalAnalysis.t)
  : list HistoricalAnalysis.t :=
  filter (fun r => HistoricalAnalysis.userEmail r =? User.email p) h.

(* ================================================================= *)
(** ** Sample values *)

Definition leafImage : string := "data:image/png;base64,AAAA".

Definition blight : AnalysisResult :=
  mkAnalysisResult "Tomato" false "Blight" (Number 0.5%float)
                   "Dark lesions on the leaf." ["Fungal infection"]
                   ["Remove the affected leaves"].

Definition alice : User.t := User.mk "user-5" "alice@x.com" user.

(** A first run in which alice registers, selects a leaf and has it
    analysed at clock reading 2000. *)
Definition aliceAnalysed : AppState :=
  run (boot emptyStorage)
      [Register "alice@x.com" "pw1" 5;
       ImageSelect (Some leafImage);
       Analyze (InferenceResolved "AAAA" blight) (mkClock 2000 2000)].

(** A workspace in which an analysis of alice is in progress. *)
Definition aliceAnalyzing : AppState :=
  fst (analyzeClick
         (run (boot emptyStorage)
              [Register "alice@x.com" "pw1" 5; ImageSelect (Some leafImage)])).

(* ================================================================= *)
(** ** Registrations, page reloads and kinds of operation *)

(** The credential record an operation adds to the registry, if it adds
    one: a registration of an email the registry does not hold (lines
    115-128). *)
Definition registered (st : AppState) (op : Op) : option Account.t :=
  match op with
  | Register email password now =>
      if existsb (fun u => Account.email u =? email) (getUsers (localStorage st))
      then None
      else Some (Account.mk (userId now) email password user)
  | _ => None
  end.

(** The records registered along a run, oldest first. *)
Fixpoint registeredAlong (st : AppState) (ops : list Op) : list Account.t :=
  match ops with
  | [] => []
  | op :: ops' =>
      match registered st op with
      | Some a => a :: registeredAlong (step st op) ops'
      | None => registeredAlong (step st op) ops'
      end
  end.

(** The history the mount effect finds in a store (lines 45-48): the blob
    when the key is present, the initial empty history otherwise. *)
Definition getAnalyses (ls : LocalStorage) : list HistoricalAnalysis.t :=
  match plant_health_analyses ls with
  | Some storedAnalyses => jsonAnalyses storedAnalyses
  | None => []
  end.

(** Loading the page again over the store the component has left. *)
Definition reload (st : AppState) : AppState := boot (localStorage st).

(** The operations of the auth page and the header, and those of the
    workspace. *)
Definition sessionOp (op : Op) : bool :=
  match op with
  | Login _ _ | Register _ _ _ | Logout => true
  | ImageSelect _ | Analyze _ _ => false
  end.

Definition pipelineOp (op : Op) : bool := negb (sessionOp op).

(** What the store and the session agree on after a page load: the registry
    key is present and the session marker is the current user. *)
Definition coherent (st : AppState) : Prop :=
  plant_health_users (localStorage st) <> None /\
  plant_health_currentUser (localStorage st) = currentUser st.

(** Every [admin] record of the registry is the seeded one, and the session
    marker, when present, is the principal of a record of the registry. *)
Definition seededOnly (ls : LocalStorage) : Prop :=
  (forall a, In a (getUsers ls) -> Account.role a = admin -> a = adminUser) /\
  (forall p, plant_health_currentUser ls = Some p ->
             exists a, In a (getUsers ls) /\ p = principalOf a).

(** Every record of the stored history carries the email of a record of the
    registry; the same for the history of the state. *)
Definition attributed (ls : LocalStorage) : Prop :=
  forall r, In r (getAnalyses ls) ->
            In (HistoricalAnalysis.userEmail r) (map Account.email (getUsers ls)).

Definition attributedState (st : AppState) : Prop :=
  forall r, In r (historicalAnalyses st) ->
            In (HistoricalAnalysis.userEmail r)
               (map Account.email (getUsers (localStorage st))).

(* ================================================================= *)
(** ** Events: attempts that overlap with other handlers *)

(** The component together with the attempts of [handleAnalyzeClick] that
    are waiting at an [await], oldest first. *)
Record World : Type := mkWorld {
  app : AppState;
  suspended : list Closure
}.

(** What can happen next: a callback of the component is called, or a
    waiting attempt reaches the end of its [try]. *)
Inductive Event : Type :=
| ImageLoaded (result : option string)                  (* reader.onloadend *)
| AnalyzeClicked                                        (* onAnalyze *)
| AttemptSettled (n : nat) (o : Outcome) (clk : Clock)  (* the n-th waiting one *)
| LoginSubmitted (email password : string)              (* onLogin *)
| RegisterSubmitted (email password : string) (now : Z) (* onRegister *)
| LogoutClicked.                                        (* onLogout *)

Fixpoint removeNth {A : Type} (n : nat) (l : list A) : list A :=
  match n, l with
  | _, [] => []
  | O, _ :: l' => l'
  | S n', x :: l' => x :: removeNth n' l'
  end.

Definition react (w : World) (e : Event) : World :=
  match e with
  | ImageLoaded result => mkWorld (handleImageSelect result (app w)) (suspended w)
  | AnalyzeClicked =>
      match analyzeClick (app w) with
      | (st1, Some c) => mkWorld st1 (suspended w ++ [c])
      | (st1, None) => mkWorld st1 (suspended w)
      end
  | AttemptSettled n o clk =>
      match nth_error (suspended w) n with
      | Some c => mkWorld (settle c o clk (app w)) (removeNth n (suspended w))
      | None => w
      end
  | LoginSubmitted email password =>
      mkWorld (handleLogin email password (app w)) (suspended w)
  | RegisterSubmitted email password now =>
      mkWorld (handleRegister email password now (app w)) (suspended w)
  | LogoutClicked => mkWorld (handleLogout (app w)) (suspended w)
  end.

Definition play (w : World) (es : list Event) : World := fold_left react es w.

(** A component with no attempt waiting, as after a page load. *)
Definition loaded (st : AppState) : World := mkWorld st [].

(** An operation run from start to exit, as events. *)
Definition eventsOf (op : Op) : list Event :=
  match op with
  | ImageSelect result => [ImageLoaded result]
  | Analyze o clk => [AnalyzeClicked; AttemptSettled 0 o clk]
  | Login email password => [LoginSubmitted email password]
  | Register email password now => [RegisterSubmitted email password now]
  | Logout => [LogoutClicked]
  end.

(** The record an event makes (lines 79-85 are reached), if it makes one,
    and the clock it is made with. *)
Definition made (w : World) (e : Event) : option HistoricalAnalysis.t :=
  match e with
  | AttemptSettled n (InferenceResolved _ result) clk
  | AttemptSettled n (PersistRejected _ result _) clk =>
      match nth_error (suspended w) n with
      | Some c => Some (newAnalysis c result clk)
      | None => None
      end
  | _ => None
  end.

Definition madeAt (w : World) (e : Event) : option Clock :=
  match made w e, e with
  | Some _, AttemptSettled _ _ clk => Some clk
  | _, _ => None
  end.

(** The records made along a sequence of events, oldest first, and the
    clocks they were made with. *)
Fixpoint madeAlong (w : World) (es : list Event) : list HistoricalAnalysis.t :=
  match es with
  | [] => []
  | e :: es' =>
      match made w e with
      | Some r => r :: madeAlong (react w e) es'
      | None => madeAlong (react w e) es'
      end
  end.

Fixpoint clocksAlong (w : World) (es : list Event) : list Clock :=
  match es with
  | [] => []
  | e :: es' =>
      match madeAt w e with
      | Some clk => clk :: clocksAlong (react w e) es'
      | None => clocksAlong (react w e) es'
      end
  end.

(** The component that holds the callback of an event is on the rendered
    surface: the auth page holds [onLogin] and [onRegister], the header of
    the two other surfaces [onLogout], the image uploader of the workspace
    [onImageSelect] and [onAnalyze]; an attempt that is waiting can settle
    whatever is rendered. *)
Definition enabled (w : World) (e : Event) : bool :=
  match e with
  | LoginSubmitted _ _ | RegisterSubmitted _ _ _ =>
      match render (app w) with AuthPage _ => true | _ => false end
  | LogoutClicked =>
      match render (app w) with AuthPage _ => false | _ => true end
  | ImageLoaded _ | AnalyzeClicked =>
      match render (app w) with UserWorkspace _ _ _ _ _ _ => true | _ => false end
  | AttemptSettled n _ _ => (n <? List.length (suspended w))%nat
  end.

Fixpoint feasible (w : World) (es : list Event) : bool :=
  match es with
  | [] => true
  | e :: es' => enabled w e && feasible (react w e) es'
  end.

(** [k] is [l] with some of its elements left out. *)
Inductive Subseq {A : Type} : list A -> list A -> Prop :=
| Subseq_nil : Subseq [] []
| Subseq_skip (x : A) (k l : list A) : Subseq k l -> Subseq k (x :: l)
| Subseq_keep (x : A) (k l : list A) : Subseq k l -> Subseq (x :: k) (x :: l).

(** The histories in play - the one of the state and the ones the waiting
    attempts hold - are each a selection of the records [made] so far,
    newest first, in front of the history [h0] of the start. *)
Definition selection (h0 made h : list HistoricalAnalysis.t) : Prop :=
  exists kept, Subseq kept (rev made) /\ h = (kept ++ h0)%list.

Definition heldHistories (h0 made : list HistoricalAnalysis.t) (w : World) : Prop :=
  selection h0 made (historicalAnalyses (app w)) /\
  Forall (fun c => selection h0 made (c_historicalAnalyses c)) (suspended w).

(* ================================================================= *)
(** * Properties *)

(** ** The guard of [handleAnalyzeClick] *)

Lemma truthy_Some (s : option string) :
  truthy s = true -> exists img, s = Some img /\ img <> "".
Proof.
  destruct s as [[|a img]|]; simpl; intros H; try discriminate.
  exists (String a img); split; [reflexivity | discriminate].
Qed.

Lemma analyzeClick_accepts (st : AppState) (u : User.t) :
  truthy (imagePreview st) = true ->
  currentUser st = Some u ->
  exists img,
    imagePreview st = Some img /\
    analyzeClick st =
      (setAnalysisResult None (setError None (setIsLoading true st)),
       Some (mkClosure img u (historicalAnalyses st))).
Proof.
  intros Himg Hu. unfold analyzeClick.
  destruct (imagePreview st) as [img|] eqn:E; [|discriminate].
  exists img. rewrite Hu, Himg. split; reflexivity.
Qed.

Lemma analyzeClick_rejects (st : AppState) :
  truthy (imagePreview st) = false \/ currentUser st = None ->
  analyzeClick st = (setError (Some "Please select an image first.") st, None).
Proof.
  unfold analyzeClick. intros [H|H].
  - destruct (imagePreview st) as [img|]; [|reflexivity].
    rewrite H. destruct (currentUser st); reflexivity.
  - rewrite H. destruct (imagePreview st); reflexivity.
Qed.

Lemma analyzeClick_guard (st : AppState) :
  snd (analyzeClick st) = None <->
  (truthy (imagePreview st) = false \/ currentUser st = None).
Proof.
  split.
  - intros H. destruct (truthy (imagePreview st)) eqn:T; [|now left].
    destruct (currentUser st) as [u|] eqn:U; [|now right].
    destruct (analyzeClick_accepts st u T U) as (img & _ & E).
    rewrite E in H. discriminate.
  - intros H. now rewrite (analyzeClick_rejects st H).
Qed.

(** C4: invoked with no image selected (null or empty preview) or with no
    principal in the session, [handleAnalyzeClick] starts nothing: it sets
    the error to "Please select an image first." and changes nothing else,
    so the loading flag is not raised, no record is created, and neither the
    history nor the store changes. *)
Theorem handleAnalyzeClick_precondition (st : AppState) (o : Outcome) (clk : Clock) :
  truthy (imagePreview st) = false \/ currentUser st = None ->
  snd (analyzeClick st) = None /\
  handleAnalyzeClick o clk st = setError (Some "Please select an image first.") st /\
  error (handleAnalyzeClick o clk st) = Some "Please select an image first." /\
  isLoading (handleAnalyzeClick o clk st) = isLoading st /\
  created st (Analyze o clk) = None /\
  historicalAnalyses (handleAnalyzeClick o clk st) = historicalAnalyses st /\
  localStorage (handleAnalyzeClick o clk st) = localStorage st.
Proof.
  intros H. pose proof (analyzeClick_rejects st H) as E.
  assert (R : handleAnalyzeClick o clk st
              = setError (Some "Please select an image first.") st).
  { unfold handleAnalyzeClick. now rewrite E. }
  rewrite R. repeat split; try reflexivity.
  - now rewrite E.
  - unfold created. rewrite E. simpl. destruct o; reflexivity.
Qed.

Lemma handleAnalyzeClick_precondition_witness :
  error (handleAnalyzeClick (InferenceResolved "AAAA" blight) (mkClock 1 1)
                            (boot emptyStorage))
  = Some "Please select an image first.".
Proof.
  apply (handleAnalyzeClick_precondition (boot emptyStorage)
           (InferenceResolved "AAAA" blight) (mkClock 1 1)).
  left. reflexivity.
Defined.

(** ** Successful analyses and the history *)

Lemma handleAnalyzeClick_resolved (st : AppState) (u : User.t) (base64 : string)
      (result : AnalysisResult) (clk : Clock) :
  truthy (imagePreview st) = true ->
  currentUser st = Some u ->
  exists img,
    imagePreview st = Some img /\
    created st (Analyze (InferenceResolved base64 result) clk)
      = Some (newAnalysis (mkClosure img u (historicalAnalyses st)) result clk) /\
    handleAnalyzeClick (InferenceResolved base64 result) clk st
      = analyzeResolved (mkClosure img u (historicalAnalyses st)) result clk
          (setAnalysisResult None (setError None (setIsLoading true st))).
Proof.
  intros Himg Hu.
  destruct (analyzeClick_accepts st u Himg Hu) as (img & Hi & E).
  exists img. unfold created, handleAnalyzeClick. rewrite E. now simpl.
Qed.

(** Every operation either leaves the history alone or puts the record it
    creates in front. *)
Lemma step_history (st : AppState) (op : Op) :
  historicalAnalyses (step st op) =
    match created st op with
    | Some r => r :: historicalAnalyses st
    | None => historicalAnalyses st
    end.
Proof.
  destruct op as [img|o clk|e p|e p now|]; simpl.
  - reflexivity.
  - unfold handleAnalyzeClick. destruct (analyzeClick st) as [st1 [c|]] eqn:E.
    + assert (Hc : c_historicalAnalyses c = historicalAnalyses st
                   /\ historicalAnalyses st1 = historicalAnalyses st).
      { unfold analyzeClick in E.
        destruct (imagePreview st) as [img|]; [|inversion E].
        destruct (currentUser st) as [u|]; [|inversion E].
        destruct (truthy (Some img)); inversion E; subst. split; reflexivity. }
      destruct Hc as [Hc1 Hc2].
      destruct o as [err|b err|b r|b r err]; simpl; try assumption;
        now rewrite Hc1.
    + assert (Hs : historicalAnalyses st1 = historicalAnalyses st).
      { unfold analyzeClick in E.
        destruct (imagePreview st) as [img|];
          [destruct (currentUser st) as [u|];
           [destruct (truthy (Some img))|]|];
          inversion E; subst; reflexivity. }
      destruct o as [err|b err|b r|b r err]; simpl; assumption.
  - unfold handleLogin.
    destruct (find _ _); reflexivity.
  - unfold handleRegister.
    destruct (existsb _ _); reflexivity.
  - reflexivity.
Qed.

Lemma run_history (ops : list Op) : forall st,
  historicalAnalyses (run st ops)
  = (rev (createdAlong st ops) ++ historicalAnalyses st)%list.
Proof.
  induction ops as [|op ops IH]; intros st; [reflexivity|].
  change (run st (op :: ops)) with (run (step st op) ops).
  rewrite IH, step_history. simpl.
  destruct (created st op) as [r|]; [|reflexivity].
  simpl. now rewrite <- app_assoc.
Qed.

Lemma created_id (st : AppState) (op : Op) (r : HistoricalAnalysis.t) :
  created st op = Some r ->
  exists o clk, op = Analyze o clk /\ HistoricalAnalysis.id r = analysisId (Date_now clk).
Proof.
  destruct op as [img|o clk|e p|e p now|]; simpl; try discriminate.
  destruct o as [err|b err|b res|b res err]; try discriminate;
    (destruct (snd (analyzeClick st)); [|discriminate]);
    intros H; inversion H; subst; eexists; eexists; split; reflexivity.
Qed.

Lemma createdAlong_ids (ops : list Op) : forall st,
  map HistoricalAnalysis.id (createdAlong st ops)
  = map analysisId (idReadingsAlong st ops).
Proof.
  induction ops as [|op ops IH]; intros st; [reflexivity|].
  simpl. destruct (created st op) as [r|] eqn:E.
  - destruct (created_id st op r E) as (o & clk & -> & Hid).
    simpl. now rewrite Hid, IH.
  - rewrite IH. destruct op; reflexivity.
Qed.

(** Ids are read back to the clock reading they were made from. *)
Lemma idStamp_analysisId (now : Z) : idStamp (analysisId now) = Some now.
Proof.
  unfold idStamp, analysisId.
  change (prefix "analysis-" ("analysis-" ++ string_of_Z now))
    with (prefix "" (string_of_Z now)).
  assert (P : prefix "" (string_of_Z now) = true) by (destruct (string_of_Z now); reflexivity).
  rewrite P.
  change (String.length ("analysis-" ++ string_of_Z now))
    with (9 + String.length (string_of_Z now))%nat.
  replace (9 + String.length (string_of_Z now) - 9)%nat
    with (String.length (string_of_Z now)) by lia.
  change (substring 9 (String.length (string_of_Z now)) ("analysis-" ++ string_of_Z now))
    with (substring 0 (String.length (string_of_Z now)) (string_of_Z now)).
  assert (S : forall s, substring 0 (String.length s) s = s).
  { induction s as [|a s IHs]; simpl; [reflexivity | now rewrite IHs]. }
  rewrite S. unfold string_of_Z. rewrite NilEmpty.isi.
  now rewrite DecimalZ.of_to.
Qed.

Lemma analysisId_inj (a b : Z) : analysisId a = analysisId b -> a = b.
Proof.
  intros H. apply (f_equal idStamp) in H.
  rewrite !idStamp_analysisId in H. now inversion H.
Qed.

Lemma increasing_readings_ids (l : list Z) :
  StronglySorted Z.lt l ->
  NoDup (map analysisId l) /\ StronglySorted idLt (map analysisId l).
Proof.
  induction 1 as [|a l Hs [IHn IHs] Hall]; simpl.
  - split; constructor.
  - split.
    + constructor; [|exact IHn].
      intros Hin. apply in_map_iff in Hin. destruct Hin as (b & Hb & Hl).
      apply analysisId_inj in Hb. subst b.
      rewrite Forall_forall in Hall. specialize (Hall a Hl). lia.
    + constructor; [exact IHs|].
      apply Forall_forall. intros x Hx.
      apply in_map_iff in Hx. destruct Hx as (b & <- & Hl).
      rewrite Forall_forall in Hall. specialize (Hall b Hl).
      exists a, b. now rewrite !idStamp_analysisId.
Qed.

(** C3, the claim as written fails: two analyses that complete at the same
    [Date.now()] reading are both recorded, under the same id. *)
Lemma duplicate_id_counterexample :
  createdAlong aliceAnalysed
    [Analyze (InferenceResolved "AAAA" blight) (mkClock 2000 2000)]
  <> [] /\
  ~ NoDup (map HistoricalAnalysis.id
               (historicalAnalyses
                  (run aliceAnalysed
                       [Analyze (InferenceResolved "AAAA" blight) (mkClock 2000 2000)]))).
Proof.
  split; [vm_compute; discriminate|].
  intros H. vm_compute in H. inversion H as [|x l Hn _]. apply Hn. left. reflexivity.
Qed.

(** ** Re-entrancy *)

(** C2 (as amended): [handleAnalyzeClick] does not consult the loading flag.
    Invoked while an analysis is in progress, with an image selected and a
    principal in the session, it starts another attempt over the current
    image, principal and history, exactly as it would otherwise, and that
    attempt calls the inference capability once its image is decoded; the
    only invocations it turns down are those the guard of line 63 rejects. *)
Theorem analyzeClick_while_loading (st : AppState) :
  (forall b, snd (analyzeClick (setIsLoading b st)) = snd (analyzeClick st)) /\
  (snd (analyzeClick st) = None <->
   truthy (imagePreview st) = false \/ currentUser st = None) /\
  (forall u,
      isLoading st = true ->
      truthy (imagePreview st) = true ->
      currentUser st = Some u ->
      exists img,
        imagePreview st = Some img /\
        analyzeClick st =
          (setAnalysisResult None (setError None (setIsLoading true st)),
           Some (mkClosure img u (historicalAnalyses st))) /\
        isLoading (fst (analyzeClick st)) = true /\
        (forall base64 result,
            callsMade (mkClosure img u (historicalAnalyses st))
                      (InferenceResolved base64 result)
            = [mkInferenceCall base64 (mimeTypeOf img)])).
Proof.
  split; [|split].
  - intros b. unfold analyzeClick. simpl.
    destruct (imagePreview st) as [[|a img]|]; destruct (currentUser st);
      reflexivity.
  - apply analyzeClick_guard.
  - intros u _ Himg Hu.
    destruct (analyzeClick_accepts st u Himg Hu) as (img & Hi & E).
    exists img. split; [exact Hi|]. split; [exact E|].
    split; [now rewrite E | reflexivity].
Qed.

Lemma analyzeClick_while_loading_witness :
  exists img,
    imagePreview aliceAnalyzing = Some img /\
    analyzeClick aliceAnalyzing =
      (setAnalysisResult None (setError None (setIsLoading true aliceAnalyzing)),
       Some (mkClosure img alice (historicalAnalyses aliceAnalyzing))) /\
    isLoading (fst (analyzeClick aliceAnalyzing)) = true /\
    (forall base64 result,
        callsMade (mkClosure img alice (historicalAnalyses aliceAnalyzing))
                  (InferenceResolved base64 result)
        = [mkInferenceCall base64 (mimeTypeOf img)]).
Proof.
  apply (proj2 (proj2 (analyzeClick_while_loading aliceAnalyzing)) alice);
    reflexivity.
Defined.

(** C2, the claim as written fails: with an analysis in progress, a second
    invocation is accepted and makes its own call of the capability. *)
Lemma reentrant_call_counterexample :
  isLoading aliceAnalyzing = true /\
  exists c,
    snd (analyzeClick aliceAnalyzing) = Some c /\
    callsMade c (InferenceResolved "AAAA" blight)
    = [mkInferenceCall "AAAA" "image/png"].
Proof.
  split; [reflexivity|]. eexists. split; reflexivity.
Qed.

(** Two overlapping attempts hold the history of the render they were
    started from: when both resolve, the record of the first is dropped. *)
Lemma overlapping_attempts_lose_a_record :
  let st0 := run (boot emptyStorage)
                 [Register "alice@x.com" "pw1" 5; ImageSelect (Some leafImage)] in
  forall st1 c1 st2 c2,
    analyzeClick st0 = (st1, Some c1) ->
    analyzeClick st1 = (st2, Some c2) ->
    let st3 := settle c1 (InferenceResolved "AAAA" blight) (mkClock 2000 2000) st2 in
    let st4 := settle c2 (InferenceResolved "AAAA" blight) (mkClock 3000 3000) st3 in
    map HistoricalAnalysis.id (historicalAnalyses st3) = ["analysis-2000"] /\
    map HistoricalAnalysis.id (historicalAnalyses st4) = ["analysis-3000"].
Proof.
  intros st0 st1 c1 st2 c2 E1 E2.
  vm_compute in E1. inversion E1; subst st1 c1.
  vm_compute in E2. inversion E2; subst st2 c2.
  split; reflexivity.
Qed.

(** ** The history handed to the surfaces *)

(** C1 (as amended): with an [admin] principal in the session the rendered
    surface is the admin dashboard and it is handed the whole history,
    unfiltered, which is the records created so far newest first; with a
    [user] principal the rendered surface is the workspace, which is handed
    no history at all: no listing filtered by [userEmail] exists. *)
Theorem history_listing_by_role (st0 : AppState) (ops : list Op) (p : User.t) :
  currentUser (run st0 ops) = Some p ->
  (User.role p = admin ->
   render (run st0 ops) = AdminDashboard p (historicalAnalyses (run st0 ops)) /\
   analysesProp (render (run st0 ops))
   = Some (rev (createdAlong st0 ops) ++ historicalAnalyses st0)%list) /\
  (User.role p = user ->
   render (run st0 ops)
   = UserWorkspace p (imagePreview (run st0 ops)) (isLoading (run st0 ops))
                   (analysisResult (run st0 ops)) (error (run st0 ops))
                   (truthy (imagePreview (run st0 ops))) /\
   analysesProp (render (run st0 ops)) = None).
Proof.
  intros Hp. unfold render. rewrite Hp. split; intros Hr; rewrite Hr; simpl.
  - split; [reflexivity|]. now rewrite run_history.
  - split; reflexivity.
Qed.

Lemma history_listing_by_role_witness :
  analysesProp
    (render (run aliceAnalysed [Logout; Login "admin@plant.health" "admin123"]))
  = Some (rev (createdAlong aliceAnalysed
                 [Logout; Login "admin@plant.health" "admin123"])
          ++ historicalAnalyses aliceAnalysed)%list.
Proof.
  apply (history_listing_by_role aliceAnalysed
           [Logout; Login "admin@plant.health" "admin123"]
           (User.mk "admin-001" "admin@plant.health" admin));
    reflexivity.
Defined.

(** C1, the claim as written fails: alice, a [user] principal with one
    record of her own in the history, is rendered a surface that is not
    handed her records. *)
Lemma user_listing_counterexample :
  currentUser aliceAnalysed = Some alice /\
  User.role alice = user /\
  ownRecords alice (historicalAnalyses aliceAnalysed) <> [] /\
  analysesProp (render aliceAnalysed)
  <> Some (ownRecords alice (historicalAnalyses aliceAnalysed)).
Proof.
  repeat split; vm_compute; discriminate.
Qed.

(** ** The account registry and the session *)

Lemma existsb_email (email : string) (users : list Account.t) :
  existsb (fun u => Account.email u =? email) users = true
  <-> In email (map Account.email users).
Proof.
  rewrite existsb_exists, in_map_iff.
  split; intros (a & H1 & H2); exists a.
  - apply String.eqb_eq in H2. now split.
  - split; [assumption | now apply String.eqb_eq].
Qed.

(** C7: registering an email the registry already holds changes nothing but
    the auth error, which becomes "An account with this email already
    exists." - the registry and the session (anonymous, on the auth page)
    are as before; registering a fresh email adds exactly one record, of
    role [user], at the end of the registry, and makes its principal the
    current user, in the state and in the persisted session marker. *)
Theorem handleRegister_spec (st : AppState) (email password : string) (now : Z) :
  let users := getUsers (localStorage st) in
  let st' := handleRegister email password now st in
  (In email (map Account.email users) ->
   st' = setAuthError (Some "An account with this email already exists.") st /\
   localStorage st' = localStorage st /\
   currentUser st' = currentUser st /\
   authError st' = Some "An account with this email already exists.") /\
  (~ In email (map Account.email users) ->
   getUsers (localStorage st')
   = (users ++ [Account.mk (userId now) email password user])%list /\
   currentUser st' = Some (User.mk (userId now) email user) /\
   plant_health_currentUser (localStorage st')
   = Some (User.mk (userId now) email user) /\
   authError st' = None).
Proof.
  intros users st'. subst users st'. unfold handleRegister.
  change (localStorage (setAuthError None st)) with (localStorage st).
  split; intros H.
  - apply existsb_email in H. rewrite H. repeat split; reflexivity.
  - destruct (existsb _ _) eqn:E.
    + apply existsb_email in E. contradiction.
    + repeat split; reflexivity.
Qed.

Lemma handleRegister_spec_witness :
  (authError (handleRegister "alice@x.com" "pw2" 9 (handleLogout aliceAnalysed))
   = Some "An account with this email already exists." /\
   currentUser (handleRegister "alice@x.com" "pw2" 9 (handleLogout aliceAnalysed))
   = None /\
   localStorage (handleRegister "alice@x.com" "pw2" 9 (handleLogout aliceAnalysed))
   = localStorage (handleLogout aliceAnalysed)) /\
  currentUser (handleRegister "bob@x.com" "pw3" 9 (handleLogout aliceAnalysed))
  = Some (User.mk "user-9" "bob@x.com" user).
Proof.
  split.
  - destruct (proj1 (handleRegister_spec (handleLogout aliceAnalysed)
                                         "alice@x.com" "pw2" 9))
      as (_ & H2 & H3 & H4).
    + vm_compute. right. left. reflexivity.
    + split; [exact H4|]. split; [exact H3 | exact H2].
  - apply (proj2 (handleRegister_spec (handleLogout aliceAnalysed)
                                      "bob@x.com" "pw3" 9)).
    vm_compute. intros [H|[H|[]]]; discriminate.
Defined.



(** *** The seeded administrator *)

Lemma analyzeClick_localStorage (st : AppState) :
  localStorage (fst (analyzeClick st)) = localStorage st.
Proof.
  unfold analyzeClick.
  destruct (imagePreview st) as [img|];
    [destruct (currentUser st); [destruct (truthy (Some img))|]|];
    reflexivity.
Qed.

(** No operation takes a record out of the registry. *)
Lemma step_registry_grows (st : AppState) (op : Op) (a : Account.t) :
  In a (getUsers (localStorage st)) ->
  In a (getUsers (localStorage (step st op))).
Proof.
  intros Hin. destruct op as [img|o clk|e p|e p now|]; simpl.
  - exact Hin.
  - unfold handleAnalyzeClick.
    pose proof (analyzeClick_localStorage st) as L.
    destruct (analyzeClick st) as [st1 [c|]]; simpl in L.
    + destruct o; simpl; unfold getUsers; simpl; rewrite L; exact Hin.
    + now rewrite L.
  - unfold handleLogin. destruct (find _ _); exact Hin.
  - unfold handleRegister. destruct (existsb _ _); [exact Hin|].
    unfold getUsers at 1. simpl. apply in_or_app. now left.
  - exact Hin.
Qed.

Lemma run_registry_grows (ops : list Op) : forall st a,
  In a (getUsers (localStorage st)) ->
  In a (getUsers (localStorage (run st ops))).
Proof.
  induction ops as [|op ops IH]; intros st a Hin; [exact Hin|].
  apply (IH (step st op)). now apply step_registry_grows.
Qed.

Lemma boot_localStorage (ls : LocalStorage) :
  localStorage (boot ls) = initializeMockUsers ls.
Proof.
  unfold boot, mount. simpl.
  destruct (plant_health_currentUser (initializeMockUsers ls)); simpl;
    destruct (plant_health_analyses (initializeMockUsers ls)); reflexivity.
Qed.

(** A store in which the registry key is absent or holds an administrator
    is seeded by the initialisation. *)
Lemma initializeMockUsers_hasAdmin (ls : LocalStorage) :
  plant_health_users ls = None \/ hasAdmin ls ->
  hasAdmin (initializeMockUsers ls).
Proof.
  unfold initializeMockUsers. intros [H|H].
  - rewrite H. exists adminUser. split; [left|]; reflexivity.
  - destruct (plant_health_users ls) eqn:E; [exact H|].
    destruct H as (a & Hin & _). unfold getUsers in Hin. rewrite E in Hin.
    destruct Hin.
Qed.

Lemma session_hasAdmin (ls : LocalStorage) (ops : list Op) :
  plant_health_users ls = None \/ hasAdmin ls ->
  hasAdmin (session ls ops).
Proof.
  intros H. apply initializeMockUsers_hasAdmin in H.
  destruct H as (a & Hin & Hr). exists a. split; [|exact Hr].
  unfold session. apply run_registry_grows. now rewrite boot_localStorage.
Qed.

Lemma sessions_seeded (loads : list (list Op)) : forall ls,
  plant_health_users ls = None \/ hasAdmin ls ->
  plant_health_users (sessions ls loads) = None \/ hasAdmin (sessions ls loads).
Proof.
  induction loads as [|ops loads IH]; intros ls H; [exact H|].
  apply (IH (session ls ops)). right. now apply session_hasAdmin.
Qed.

(** C9: starting from a store with no key, after any number of earlier page
    loads with any operations in them, the registry of a loaded page holds a
    record of role [admin] after its initialisation and after every sequence
    of operations; a record once in the registry stays in it. *)
Theorem registry_keeps_admin (loads : list (list Op)) (ops : list Op) :
  hasAdmin (localStorage (run (boot (sessions emptyStorage loads)) ops)) /\
  (forall a,
      In a (getUsers (localStorage (boot (sessions emptyStorage loads)))) ->
      In a (getUsers (localStorage (run (boot (sessions emptyStorage loads)) ops)))).
Proof.
  split.
  - apply (session_hasAdmin (sessions emptyStorage loads) ops).
    apply sessions_seeded. now left.
  - intros a. apply run_registry_grows.
Qed.

Lemma registry_keeps_admin_witness :
  In adminUser
     (getUsers (localStorage
                  (run (boot (sessions emptyStorage [[Register "alice@x.com" "pw1" 5]]))
                       [Logout; Register "bob@x.com" "pw3" 9]))).
Proof.
  apply (proj2 (registry_keeps_admin [[Register "alice@x.com" "pw1" 5]]
                                     [Logout; Register "bob@x.com" "pw3" 9])
               adminUser).
  left. reflexivity.
Defined.

(** ** The scenario of the specification

    On a first run the seeded administrator can log in; alice registers and
    is logged in with role [user]; she selects a leaf and has it analysed,
    which leaves one record under her email; the administrator, logged in
    afterwards, is handed that record. *)
Example scenario :
  let st1 := run (boot emptyStorage) [Login "admin@plant.health" "admin123"] in
  let st2 := run st1 [Logout; Register "alice@x.com" "pw1" 5] in
  let st3 := run st2 [ImageSelect (Some leafImage);
                      Analyze (InferenceResolved "AAAA" blight) (mkClock 2000 2000)] in
  let st4 := run st3 [Logout; Login "admin@plant.health" "admin123"] in
  option_map User.role (currentUser st1) = Some admin /\
  option_map User.role (currentUser st2) = Some user /\
  map HistoricalAnalysis.userEmail (historicalAnalyses st3) = ["alice@x.com"] /\
  map HistoricalAnalysis.analysis (historicalAnalyses st3) = [blight] /\
  analysesProp (render st4) = Some (historicalAnalyses st3).
Proof.
  vm_compute. repeat split.
Qed.

(* ================================================================= *)
(** * Further properties of the handlers *)

(** ** The two ways [handleAnalyzeClick] runs *)

Lemma handleAnalyzeClick_cases (o : Outcome) (clk : Clock) (st : AppState) :
  (exists img u,
      imagePreview st = Some img /\ currentUser st = Some u /\
      handleAnalyzeClick o clk st
      = settle (mkClosure img u (historicalAnalyses st)) o clk
               (setAnalysisResult None (setError None (setIsLoading true st)))) \/
  ((truthy (imagePreview st) = false \/ currentUser st = None) /\
   handleAnalyzeClick o clk st = setError (Some "Please select an image first.") st).
Proof.
  destruct (truthy (imagePreview st)) eqn:T.
  - destruct (currentUser st) as [u|] eqn:U.
    + left. destruct (analyzeClick_accepts st u T U) as (img & Hi & E).
      exists img, u. unfold handleAnalyzeClick. rewrite E. now repeat split.
    + right. split; [now right|]. unfold handleAnalyzeClick.
      now rewrite (analyzeClick_rejects st (or_intror U)).
  - right. split; [now left|]. unfold handleAnalyzeClick.
    now rewrite (analyzeClick_rejects st (or_introl T)).
Qed.

Lemma handleAnalyzeClick_session (o : Outcome) (clk : Clock) (st : AppState) :
  currentUser (handleAnalyzeClick o clk st) = currentUser st /\
  authError (handleAnalyzeClick o clk st) = authError st /\
  imagePreview (handleAnalyzeClick o clk st) = imagePreview st /\
  plant_health_users (localStorage (handleAnalyzeClick o clk st))
  = plant_health_users (localStorage st) /\
  plant_health_currentUser (localStorage (handleAnalyzeClick o clk st))
  = plant_health_currentUser (localStorage st).
Proof.
  destruct (handleAnalyzeClick_cases o clk st) as [(img & u & _ & _ & E)|[_ E]];
    rewrite E; [destruct o|]; repeat split; reflexivity.
Qed.

(** ** The registry along a run *)

Lemma step_registry (st : AppState) (op : Op) :
  getUsers (localStorage (step st op)) =
    match registered st op with
    | Some a => (getUsers (localStorage st) ++ [a])%list
    | None => getUsers (localStorage st)
    end.
Proof.
  destruct op as [img|o clk|e p|e p now|]; simpl.
  - reflexivity.
  - unfold getUsers.
    now destruct (handleAnalyzeClick_session o clk st) as (_ & _ & _ & -> & _).
  - unfold handleLogin. destruct (find _ _); reflexivity.
  - unfold handleRegister.
    change (localStorage (setAuthError None st)) with (localStorage st).
    destruct (existsb _ _); reflexivity.
  - reflexivity.
Qed.

Lemma run_registry (ops : list Op) : forall st,
  getUsers (localStorage (run st ops))
  = (getUsers (localStorage st) ++ registeredAlong st ops)%list.
Proof.
  induction ops as [|op ops IH]; intros st; simpl.
  - now rewrite app_nil_r.
  - change (fold_left step ops (step st op)) with (run (step st op) ops).
    rewrite IH, step_registry.
    destruct (registered st op) as [a|]; [|reflexivity].
    now rewrite <- app_assoc.
Qed.

Lemma registered_fresh (st : AppState) (op : Op) (a : Account.t) :
  registered st op = Some a ->
  Account.role a = user /\
  ~ In (Account.email a) (map Account.email (getUsers (localStorage st))).
Proof.
  destruct op as [img|o clk|e p|e p now|]; simpl; try discriminate.
  destruct (existsb _ _) eqn:E; [discriminate|].
  intros H. inversion H; subst; simpl. split; [reflexivity|].
  intros Hin. apply existsb_email in Hin. congruence.
Qed.

Lemma registeredAlong_fresh (ops : list Op) : forall st a,
  In a (registeredAlong st ops) ->
  Account.role a = user /\
  ~ In (Account.email a) (map Account.email (getUsers (localStorage st))).
Proof.
  induction ops as [|op ops IH]; intros st a Hin; simpl in Hin; [destruct Hin|].
  assert (Later : In a (registeredAlong (step st op) ops) ->
                  Account.role a = user /\
                  ~ In (Account.email a)
                       (map Account.email (getUsers (localStorage st)))).
  { intros H. destruct (IH _ _ H) as [Hr Hn]. split; [exact Hr|].
    intros Hin'. apply Hn. rewrite step_registry.
    destruct (registered st op); [|exact Hin'].
    rewrite map_app. apply in_or_app. now left. }
  destruct (registered st op) as [b|] eqn:E; [|now apply Later].
  destruct Hin as [<-|Hin]; [now apply (registered_fresh st op)|now apply Later].
Qed.

Lemma registeredAlong_NoDup (ops : list Op) : forall st,
  NoDup (map Account.email (registeredAlong st ops)).
Proof.
  induction ops as [|op ops IH]; intros st; simpl; [constructor|].
  destruct (registered st op) as [a|] eqn:E; [|apply IH].
  simpl. constructor; [|apply IH].
  intros Hin. apply in_map_iff in Hin. destruct Hin as (b & Hb & Hin).
  destruct (registeredAlong_fresh _ _ _ Hin) as [_ Hn]. apply Hn.
  rewrite step_registry, E, map_app. apply in_or_app. right.
  simpl. left. congruence.
Qed.

(** X1: the registry is append-only.  After any sequence of operations it
    is the registry before, followed by the records of the registrations
    that were accepted, in order; each of these has role [user] and an email
    that the registry before did not hold.  Logins, logouts, image
    selections and analyses add nothing. *)
Theorem registry_append_only (st : AppState) (ops : list Op) :
  getUsers (localStorage (run st ops))
  = (getUsers (localStorage st) ++ registeredAlong st ops)%list /\
  Forall (fun a => Account.role a = user /\
                   ~ In (Account.email a)
                        (map Account.email (getUsers (localStorage st))))
         (registeredAlong st ops) /\
  (forallb (fun op => match op with Register _ _ _ => false | _ => true end) ops = true ->
   getUsers (localStorage (run st ops)) = getUsers (localStorage st)).
Proof.
  split; [apply run_registry|]. split.
  - apply Forall_forall. intros a. apply registeredAlong_fresh.
  - intros H. rewrite run_registry.
    assert (N : forall st', registeredAlong st' ops = []).
    { induction ops as [|op ops IH]; intros st'; [reflexivity|].
      simpl in H. apply andb_true_iff in H. destruct H as [H1 H2].
      simpl. destruct op; try discriminate; simpl; now apply IH. }
    rewrite N. apply app_nil_r.
Qed.

Lemma registry_append_only_witness :
  getUsers (localStorage (run aliceAnalysed
                              [Logout; Login "admin@plant.health" "admin123"]))
  = getUsers (localStorage aliceAnalysed).
Proof.
  apply (registry_append_only aliceAnalysed
           [Logout; Login "admin@plant.health" "admin123"]).
  reflexivity.
Defined.

(** X2: no two records of the registry share an email.  The operations keep
    this: a registry without duplicate emails has none after any sequence of
    operations; and so it is in every page load of an installation that
    started from an empty store. *)
Theorem registry_emails_unique :
  (forall st ops,
      NoDup (map Account.email (getUsers (localStorage st))) ->
      NoDup (map Account.email (getUsers (localStorage (run st ops))))) /\
  (forall loads ops,
      NoDup (map Account.email
                 (getUsers (localStorage
                              (run (boot (sessions emptyStorage loads)) ops))))).
Proof.
  assert (P : forall st ops,
             NoDup (map Account.email (getUsers (localStorage st))) ->
             NoDup (map Account.email (getUsers (localStorage (run st ops))))).
  { intros st ops H. rewrite run_registry, map_app.
    assert (G : forall l1 l2 : list string,
               NoDup l1 -> NoDup l2 -> (forall x, In x l2 -> ~ In x l1) ->
               NoDup (l1 ++ l2)).
    { induction l1 as [|x l1 IH]; intros l2 H1 H2 Hd; [exact H2|].
      inversion H1; subst. simpl. constructor.
      - intros Hin. apply in_app_or in Hin. destruct Hin as [Hin|Hin];
          [contradiction|]. apply (Hd x Hin). now left.
      - apply IH; try assumption. intros y Hy Hy'. apply (Hd y Hy). now right. }
    apply G; [exact H | apply registeredAlong_NoDup |].
    intros x Hx. apply in_map_iff in Hx. destruct Hx as (a & <- & Ha).
    now apply (registeredAlong_fresh ops st a). }
  split; [exact P|].
  intros loads ops. apply P. rewrite boot_localStorage.
  assert (S : forall earlier ls,
             NoDup (map Account.email (getUsers ls)) ->
             NoDup (map Account.email (getUsers (sessions ls earlier)))).
  { induction earlier as [|l earlier IH]; intros ls H; [exact H|].
    apply (IH (session ls l)). unfold session. apply P.
    rewrite boot_localStorage. unfold initializeMockUsers.
    destruct (plant_health_users ls) eqn:E; [exact H|].
    simpl. repeat constructor. intros []. }
  specialize (S loads emptyStorage (NoDup_nil _)).
  unfold initializeMockUsers.
  destruct (plant_health_users (sessions emptyStorage loads)) eqn:E; [exact S|].
  simpl. repeat constructor. intros [].
Qed.

Lemma registry_emails_unique_witness :
  NoDup (map Account.email
             (getUsers (localStorage
                          (run aliceAnalysed
                               [Logout; Register "alice@x.com" "pw2" 7;
                                Register "bob@x.com" "pw3" 9])))).
Proof.
  apply (proj1 registry_emails_unique aliceAnalysed).
  vm_compute. repeat constructor; simpl; intuition discriminate.
Defined.

(** ** Credentials *)

Lemma find_app_first {A : Type} (f : A -> bool) (l1 l2 : list A) (x : A) :
  (forall y, In y l1 -> f y = false) -> f x = true ->
  find f (l1 ++ x :: l2) = Some x.
Proof.
  intros H Hx. induction l1 as [|y l1 IH]; simpl.
  - now rewrite Hx.
  - rewrite (H y (or_introl eq_refl)). apply IH.
    intros z Hz. apply H. now right.
Qed.

Lemma find_all_false {A : Type} (f : A -> bool) (l : list A) :
  (forall y, In y l -> f y = false) -> find f l = None.
Proof.
  intros H. induction l as [|y l IH]; simpl; [reflexivity|].
  rewrite (H y (or_introl eq_refl)). apply IH. intros z Hz. apply H. now right.
Qed.

(** X3: credentials keep working, and only they do.  Once an email the
    registry did not hold has been registered with a password, then after
    any further operations a login with that email succeeds exactly with
    that password: with it the current user becomes the principal created
    at the registration and no auth error is left; with any other password
    the login is refused with "Invalid email or password." and the session
    is not changed. *)
Theorem login_after_register (st : AppState) (email password : string) (now : Z)
        (ops : list Op) :
  ~ In email (map Account.email (getUsers (localStorage st))) ->
  let st' := run (handleRegister email password now st) ops in
  (currentUser (handleLogin email password st')
   = Some (User.mk (userId now) email user) /\
   authError (handleLogin email password st') = None) /\
  (forall other,
      other <> password ->
      currentUser (handleLogin email other st') = currentUser st' /\
      authError (handleLogin email other st') = Some "Invalid email or password.").
Proof.
  intros Hfresh st'.
  pose (new := Account.mk (userId now) email password user).
  pose (st1 := handleRegister email password now st).
  assert (N : registered st (Register email password now) = Some new).
  { simpl. destruct (existsb _ _) eqn:E; [|reflexivity].
    apply existsb_email in E. contradiction. }
  assert (R1 : getUsers (localStorage st1)
               = (getUsers (localStorage st) ++ [new])%list).
  { pose proof (step_registry st (Register email password now)) as H.
    now rewrite N in H. }
  assert (R : getUsers (localStorage st')
              = (getUsers (localStorage st) ++ new :: registeredAlong st1 ops)%list).
  { subst st'. fold st1. rewrite run_registry, R1, <- app_assoc. reflexivity. }
  assert (Old : forall y, In y (getUsers (localStorage st)) ->
                          (Account.email y =? email) = false).
  { intros y Hy. apply String.eqb_neq. intros He. apply Hfresh.
    apply in_map_iff. now exists y. }
  assert (Later : forall y, In y (registeredAlong st1 ops) ->
                            (Account.email y =? email) = false).
  { intros y Hy. apply String.eqb_neq. intros He.
    destruct (registeredAlong_fresh ops st1 y Hy) as [_ Hn]. apply Hn.
    rewrite R1, map_app. apply in_or_app. right. simpl. now left. }
  split.
  - unfold handleLogin.
    change (localStorage (setAuthError None st')) with (localStorage st').
    rewrite R, (find_app_first _ _ _ new).
    + split; reflexivity.
    + intros y Hy. now rewrite (Old y Hy).
    + simpl. now rewrite !String.eqb_refl.
  - intros other Hother. unfold handleLogin.
    change (localStorage (setAuthError None st')) with (localStorage st').
    rewrite R, find_all_false.
    + split; reflexivity.
    + intros y Hy. apply in_app_or in Hy. destruct Hy as [Hy|[<-|Hy]].
      * now rewrite (Old y Hy).
      * simpl. rewrite String.eqb_refl. simpl.
        apply String.eqb_neq. congruence.
      * now rewrite (Later y Hy).
Qed.

Lemma login_after_register_witness :
  currentUser
    (handleLogin "bob@x.com" "pw3"
       (run (handleRegister "bob@x.com" "pw3" 9 (handleLogout aliceAnalysed))
            [Logout; Register "carol@x.com" "pw4" 11; Logout]))
  = Some (User.mk "user-9" "bob@x.com" user) /\
  authError
    (handleLogin "bob@x.com" "pw3"
       (run (handleRegister "bob@x.com" "pw3" 9 (handleLogout aliceAnalysed))
            [Logout; Register "carol@x.com" "pw4" 11; Logout]))
  = None.
Proof.
  apply (login_after_register (handleLogout aliceAnalysed) "bob@x.com" "pw3" 9
           [Logout; Register "carol@x.com" "pw4" 11; Logout]).
  vm_compute. intros [H|[H|[]]]; discriminate.
Defined.

(** ** The session across operations *)

Lemma boot_coherent (ls : LocalStorage) : coherent (boot ls).
Proof.
  destruct ls as [[users|] [marker|] [blob|]];
    split; try reflexivity; discriminate.
Qed.

Lemma step_coherent (st : AppState) (op : Op) :
  coherent st -> coherent (step st op).
Proof.
  intros (Hu & Hm). destruct op as [img|o clk|e p|e p now|]; simpl.
  - split; assumption.
  - destruct (handleAnalyzeClick_session o clk st) as (E1 & _ & _ & E4 & E5).
    split; [now rewrite E4 | now rewrite E5, E1].
  - unfold handleLogin. destruct (find _ _); split; simpl;
      assumption || reflexivity.
  - unfold handleRegister. destruct (existsb _ _); split; simpl;
      assumption || reflexivity || discriminate.
  - split; simpl; assumption || reflexivity.
Qed.

Lemma run_coherent (ops : list Op) : forall st,
  coherent st -> coherent (run st ops).
Proof.
  induction ops as [|op ops IH]; intros st H; [exact H|].
  apply (IH (step st op)). now apply step_coherent.
Qed.

(** ** The loading flag *)

Lemma step_isLoading (st : AppState) (op : Op) :
  isLoading st = false -> isLoading (step st op) = false.
Proof.
  intros H. destruct op as [img|o clk|e p|e p now|]; simpl; try exact H.
  - destruct (handleAnalyzeClick_cases o clk st) as [(img & u & _ & _ & E)|[_ E]];
      rewrite E; [destruct o; reflexivity | exact H].
  - unfold handleLogin. destruct (find _ _); exact H.
  - unfold handleRegister. destruct (existsb _ _); exact H.
Qed.

(** X5: no attempt leaves the loading flag up.  An attempt that passes the
    guard exits with the flag down however it ends, so with the flag down
    before a sequence of operations run one at a time it is down after it;
    in particular it is down after any such sequence from a page load. *)
Theorem loading_flag_cleared :
  (forall st u o clk,
      truthy (imagePreview st) = true -> currentUser st = Some u ->
      isLoading (handleAnalyzeClick o clk st) = false) /\
  (forall st ops, isLoading st = false -> isLoading (run st ops) = false) /\
  (forall ls ops, isLoading (run (boot ls) ops) = false).
Proof.
  assert (R : forall ops st, isLoading st = false -> isLoading (run st ops) = false).
  { induction ops as [|op ops IH]; intros st H; [exact H|].
    apply (IH (step st op)). now apply step_isLoading. }
  split; [|split].
  - intros st u o clk Himg Hu.
    destruct (analyzeClick_accepts st u Himg Hu) as (img & _ & E).
    unfold handleAnalyzeClick. rewrite E. destruct o; reflexivity.
  - intros st ops. apply R.
  - intros ls ops. apply R.
    destruct ls as [[users|] [marker|] [blob|]]; reflexivity.
Qed.

Lemma loading_flag_cleared_witness :
  isLoading (handleAnalyzeClick (Base64Rejected ThrownOther) (mkClock 1 1)
                                aliceAnalyzing) = false /\
  isLoading (run aliceAnalysed [Logout; Login "admin@plant.health" "admin123"])
  = false.
Proof.
  split.
  - apply (proj1 loading_flag_cleared aliceAnalyzing alice); reflexivity.
  - apply (proj1 (proj2 loading_flag_cleared)). reflexivity.
Defined.

(** ** What each kind of operation leaves alone *)

(** X6: the session operations never touch the workspace or the history.
    After any sequence of logins, registrations and logouts the selected
    image, the captured result and error, the loading flag, the history and
    its blob are what they were - a logout does not clear them, so the next
    principal to log in finds the image and the result of the previous
    one. *)
Theorem session_ops_frame (st : AppState) (ops : list Op) :
  forallb sessionOp ops = true ->
  imagePreview (run st ops) = imagePreview st /\
  analysisResult (run st ops) = analysisResult st /\
  error (run st ops) = error st /\
  isLoading (run st ops) = isLoading st /\
  historicalAnalyses (run st ops) = historicalAnalyses st /\
  plant_health_analyses (localStorage (run st ops))
  = plant_health_analyses (localStorage st).
Proof.
  revert st. induction ops as [|op ops IH]; intros st H; [now repeat split|].
  simpl in H. apply andb_true_iff in H. destruct H as [H1 H2].
  change (run st (op :: ops)) with (run (step st op) ops).
  destruct (IH (step st op) H2) as (-> & -> & -> & -> & -> & ->).
  destruct op as [img|o clk|e p|e p now|]; try discriminate; simpl.
  - unfold handleLogin. destruct (find _ _); repeat split; reflexivity.
  - unfold handleRegister. destruct (existsb _ _); repeat split; reflexivity.
  - repeat split; reflexivity.
Qed.

Lemma session_ops_frame_witness :
  imagePreview (run aliceAnalysed [Logout; Register "bob@x.com" "pw3" 9])
  = Some leafImage /\
  analysisResult (run aliceAnalysed [Logout; Register "bob@x.com" "pw3" 9])
  = Some blight.
Proof.
  destruct (session_ops_frame aliceAnalysed [Logout; Register "bob@x.com" "pw3" 9]
                              eq_refl)
    as (H1 & H2 & _).
  split; [exact H1 | exact H2].
Defined.

(** X7: the workspace operations never touch the session or the registry.
    After any sequence of image selections and analyses, whatever their
    outcome, the current user, the auth error, the registry and the session
    marker are what they were. *)
Theorem pipeline_ops_frame (st : AppState) (ops : list Op) :
  forallb pipelineOp ops = true ->
  currentUser (run st ops) = currentUser st /\
  authError (run st ops) = authError st /\
  plant_health_users (localStorage (run st ops))
  = plant_health_users (localStorage st) /\
  plant_health_currentUser (localStorage (run st ops))
  = plant_health_currentUser (localStorage st).
Proof.
  revert st. induction ops as [|op ops IH]; intros st H; [now repeat split|].
  simpl in H. apply andb_true_iff in H. destruct H as [H1 H2].
  change (run st (op :: ops)) with (run (step st op) ops).
  destruct (IH (step st op) H2) as (-> & -> & -> & ->).
  destruct op as [img|o clk|e p|e p now|]; try discriminate; simpl.
  - repeat split; reflexivity.
  - destruct (handleAnalyzeClick_session o clk st) as (E1 & E2 & _ & E4 & E5).
    now repeat split.
Qed.

Lemma pipeline_ops_frame_witness :
  currentUser
    (run aliceAnalysed
         [ImageSelect None;
          Analyze (InferenceResolved "AAAA" blight) (mkClock 3000 3000);
          ImageSelect (Some leafImage);
          Analyze (InferenceRejected "AAAA" ThrownOther) (mkClock 4000 4000)])
  = Some alice.
Proof.
  apply (pipeline_ops_frame aliceAnalysed
           [ImageSelect None;
            Analyze (InferenceResolved "AAAA" blight) (mkClock 3000 3000);
            ImageSelect (Some leafImage);
            Analyze (InferenceRejected "AAAA" ThrownOther) (mkClock 4000 4000)]).
  reflexivity.
Defined.

(** ** Who is an administrator *)

Lemma initializeMockUsers_seededOnly (ls : LocalStorage) :
  seededOnly ls -> seededOnly (initializeMockUsers ls).
Proof.
  intros [H1 H2]. unfold initializeMockUsers.
  destruct (plant_health_users ls) eqn:E; [now split|].
  split.
  - intros a [<-|[]] _. reflexivity.
  - simpl. intros p Hp. destruct (H2 p Hp) as (a & Hin & _).
    unfold getUsers in Hin. rewrite E in Hin. destruct Hin.
Qed.

Lemma step_seededOnly (st : AppState) (op : Op) :
  seededOnly (localStorage st) -> seededOnly (localStorage (step st op)).
Proof.
  intros [H1 H2]. destruct op as [img|o clk|e p|e p now|]; simpl.
  - now split.
  - destruct (handleAnalyzeClick_session o clk st) as (_ & _ & _ & E4 & E5).
    unfold seededOnly, getUsers. rewrite E4, E5. now split.
  - unfold handleLogin.
    change (localStorage (setAuthError None st)) with (localStorage st).
    destruct (find _ _) as [a|] eqn:F; [|now split].
    apply find_some in F. destruct F as [Hin _].
    split; [exact H1|]. simpl. intros q Hq. inversion Hq; subst.
    now exists a.
  - unfold handleRegister.
    change (localStorage (setAuthError None st)) with (localStorage st).
    destruct (existsb _ _); [now split|].
    split; unfold getUsers at 1; simpl.
    + intros a Hin Hr. apply in_app_or in Hin. destruct Hin as [Hin|[<-|[]]].
      * now apply H1.
      * discriminate.
    + intros q Hq. inversion Hq; subst.
      exists (Account.mk (userId now) e p user). split; [|reflexivity].
      apply in_or_app. right. now left.
  - split; [exact H1|]. simpl. discriminate.
Qed.

Lemma run_seededOnly (ops : list Op) : forall st,
  seededOnly (localStorage st) -> seededOnly (localStorage (run st ops)).
Proof.
  induction ops as [|op ops IH]; intros st H; [exact H|].
  apply (IH (step st op)). now apply step_seededOnly.
Qed.

Lemma sessions_seededOnly (loads : list (list Op)) : forall ls,
  seededOnly ls -> seededOnly (sessions ls loads).
Proof.
  induction loads as [|ops loads IH]; intros ls H; [exact H|].
  apply (IH (session ls ops)). unfold session. apply run_seededOnly.
  rewrite boot_localStorage. now apply initializeMockUsers_seededOnly.
Qed.

(** X8: nobody becomes an administrator.  In an installation that started
    from an empty store, after any page loads and operations, the only
    record of role [admin] in the registry is the seeded one, the current
    user is the principal of a record of the registry, and the admin
    dashboard is rendered for the seeded administrator only. *)
Theorem only_seeded_admin (loads : list (list Op)) (ops : list Op) :
  let st := run (boot (sessions emptyStorage loads)) ops in
  (forall a, In a (getUsers (localStorage st)) ->
             Account.role a = admin -> a = adminUser) /\
  (forall p, currentUser st = Some p ->
             exists a, In a (getUsers (localStorage st)) /\ p = principalOf a) /\
  (forall p analyses, render st = AdminDashboard p analyses ->
                      p = principalOf adminUser).
Proof.
  intros st.
  assert (S : seededOnly (localStorage st)).
  { apply run_seededOnly. rewrite boot_localStorage.
    apply initializeMockUsers_seededOnly, sessions_seededOnly.
    split; [intros a []|discriminate]. }
  assert (C : coherent st) by apply run_coherent, boot_coherent.
  destruct S as [S1 S2]. destruct C as (_ & Hm). rewrite Hm in S2.
  split; [exact S1|]. split; [exact S2|].
  intros p analyses Hr. unfold render in Hr.
  destruct (currentUser st) as [q|] eqn:Q; [|discriminate].
  destruct (User.role q) eqn:Rq; [discriminate|].
  inversion Hr; subst q.
  destruct (S2 p eq_refl) as (a & Hin & ->).
  now rewrite (S1 a Hin Rq).
Qed.

Lemma only_seeded_admin_witness :
  User.mk "admin-001" "admin@plant.health" admin = principalOf adminUser.
Proof.
  apply (proj2 (proj2 (only_seeded_admin
                         [[Register "alice@x.com" "pw1" 5]]
                         [Logout; Login "admin@plant.health" "admin123"]))
               (User.mk "admin-001" "admin@plant.health" admin) []).
  reflexivity.
Defined.

(** ** Overlapping attempts *)

(** X9: two attempts started one after the other before either has settled
    both work on the history of the render they were started from.  When
    both resolve, the first to settle lowers the loading flag while the
    second is still pending, and the second to settle replaces the history,
    in the state and in the store, by its own record in front of the history
    before the first click: two analyses have completed and the history has
    grown by one record. *)
Theorem overlapping_attempts (st : AppState) (u : User.t)
        (b1 b2 : string) (r1 r2 : AnalysisResult) (clk1 clk2 : Clock) :
  truthy (imagePreview st) = true ->
  currentUser st = Some u ->
  exists st1 c1 st2 c2,
    analyzeClick st = (st1, Some c1) /\
    analyzeClick st1 = (st2, Some c2) /\
    let st3 := settle c1 (InferenceResolved b1 r1) clk1 st2 in
    let st4 := settle c2 (InferenceResolved b2 r2) clk2 st3 in
    historicalAnalyses st3 = newAnalysis c1 r1 clk1 :: historicalAnalyses st /\
    isLoading st3 = false /\
    historicalAnalyses st4 = newAnalysis c2 r2 clk2 :: historicalAnalyses st /\
    plant_health_analyses (localStorage st4)
    = Some (newAnalysis c2 r2 clk2 :: historicalAnalyses st) /\
    List.length (historicalAnalyses st4) = S (List.length (historicalAnalyses st)).
Proof.
  intros Himg Hu.
  destruct (analyzeClick_accepts st u Himg Hu) as (img & Hi & E1).
  pose (st1 := setAnalysisResult None (setError None (setIsLoading true st))).
  assert (Himg1 : truthy (imagePreview st1) = true) by exact Himg.
  assert (Hu1 : currentUser st1 = Some u) by exact Hu.
  destruct (analyzeClick_accepts st1 u Himg1 Hu1) as (img' & Hi' & E2).
  eexists; eexists; eexists; eexists.
  split; [exact E1|]. split; [exact E2|].
  repeat split; reflexivity.
Qed.

Lemma overlapping_attempts_witness :
  exists st1 c1 st2 c2,
    analyzeClick aliceAnalysed = (st1, Some c1) /\
    analyzeClick st1 = (st2, Some c2) /\
    let st3 := settle c1 (InferenceResolved "AAAA" blight) (mkClock 3000 3000) st2 in
    let st4 := settle c2 (InferenceResolved "AAAA" blight) (mkClock 4000 4000) st3 in
    historicalAnalyses st3
    = newAnalysis c1 blight (mkClock 3000 3000) :: historicalAnalyses aliceAnalysed /\
    isLoading st3 = false /\
    historicalAnalyses st4
    = newAnalysis c2 blight (mkClock 4000 4000) :: historicalAnalyses aliceAnalysed /\
    plant_health_analyses (localStorage st4)
    = Some (newAnalysis c2 blight (mkClock 4000 4000)
            :: historicalAnalyses aliceAnalysed) /\
    List.length (historicalAnalyses st4)
    = S (List.length (historicalAnalyses aliceAnalysed)).
Proof.
  apply (overlapping_attempts aliceAnalysed alice "AAAA" "AAAA" blight blight
           (mkClock 3000 3000) (mkClock 4000 4000));
    reflexivity.
Defined.

(** ** The media type handed to the inference call *)

Lemma index_char_cons (c b : ascii) (s : string) :
  index 0 (String c "") (String b s)
  = if Ascii.eqb c b then Some 0%nat
    else option_map S (index 0 (String c "") s).
Proof.
  simpl. destruct (ascii_dec c b) as [->|Hne].
  - rewrite Ascii.eqb_refl. destruct s; reflexivity.
  - apply Ascii.eqb_neq in Hne. rewrite Hne.
    destruct (index 0 (String c "") s); reflexivity.
Qed.

Lemma index_char_append (c : ascii) (m rest : string) :
  index 0 (String c "") m = None ->
  index 0 (String c "") (m ++ String c rest) = Some (String.length m).
Proof.
  induction m as [|b m IH]; intros H.
  - simpl append. rewrite index_char_cons, Ascii.eqb_refl. reflexivity.
  - rewrite index_char_cons in H. simpl append. rewrite index_char_cons.
    destruct (Ascii.eqb c b); [discriminate|].
    destruct (index 0 (String c "") m) eqn:E; [discriminate|].
    now rewrite (IH eq_refl).
Qed.

Lemma substring_append (m rest : string) :
  substring 0 (String.length m) (m ++ rest) = m.
Proof.
  induction m as [|b m IH]; simpl.
  - destruct rest; reflexivity.
  - now rewrite IH.
Qed.

Lemma length_append (a b : string) :
  String.length (a ++ b) = (String.length a + String.length b)%nat.
Proof.
  induction a as [|c a IH]; simpl; [reflexivity | now rewrite IH].
Qed.

Lemma js_substring_in_range (s : string) (a b : nat) :
  (a <= b)%nat -> (b <= String.length s)%nat ->
  js_substring s (Z.of_nat a) (Z.of_nat b) = substring a (b - a) s.
Proof.
  intros Hab Hb. unfold js_substring. cbv zeta.
  replace (Z.max 0 (Z.min (Z.of_nat a) (Z.of_nat (String.length s))))
    with (Z.of_nat a) by lia.
  replace (Z.max 0 (Z.min (Z.of_nat b) (Z.of_nat (String.length s))))
    with (Z.of_nat b) by lia.
  replace (Z.min (Z.of_nat a) (Z.of_nat b)) with (Z.of_nat a) by lia.
  replace (Z.max (Z.of_nat a) (Z.of_nat b)) with (Z.of_nat b) by lia.
  rewrite <- Nat2Z.inj_sub by exact Hab. now rewrite !Nat2Z.id.
Qed.

(** X11: the media type of a data URI.  For a preview of the form
    [data:<mime>;<rest>] in which [<mime>] has no semicolon, the type handed
    to the inference call is [<mime>]; for a preview with neither a colon
    nor a semicolon it is the empty string. *)
Theorem mimeTypeOf_dataURI :
  (forall mime rest,
      indexOf mime ";" = (-1)%Z ->
      mimeTypeOf ("data:" ++ mime ++ ";" ++ rest) = mime) /\
  (forall img,
      indexOf img ":" = (-1)%Z -> indexOf img ";" = (-1)%Z ->
      mimeTypeOf img = "").
Proof.
  split.
  - intros mime rest H.
    assert (N : index 0 ";" mime = None).
    { unfold indexOf in H. destruct (index 0 ";" mime); [lia | reflexivity]. }
    unfold mimeTypeOf.
    assert (C : indexOf ("data:" ++ mime ++ ";" ++ rest) ":" = 4%Z).
    { unfold indexOf. simpl append. now rewrite !index_char_cons. }
    assert (S : indexOf ("data:" ++ mime ++ ";" ++ rest) ";"
                = Z.of_nat (5 + String.length mime)).
    { unfold indexOf. simpl append. rewrite !index_char_cons. simpl.
      now rewrite (index_char_append ";" mime rest N). }
    rewrite C, S. change (4 + 1)%Z with (Z.of_nat 5).
    rewrite js_substring_in_range.
    + replace (5 + String.length mime - 5)%nat with (String.length mime) by lia.
      simpl. apply substring_append.
    + lia.
    + simpl. rewrite length_append. simpl. lia.
  - intros img H1 H2. unfold mimeTypeOf. rewrite H1, H2.
    unfold js_substring. cbv zeta.
    replace (Z.max 0 (Z.min (-1 + 1) (Z.of_nat (String.length img)))) with 0%Z by lia.
    replace (Z.max 0 (Z.min (-1) (Z.of_nat (String.length img)))) with 0%Z by lia.
    destruct img; reflexivity.
Qed.

Lemma mimeTypeOf_dataURI_witness :
  mimeTypeOf ("data:" ++ "image/jpeg" ++ ";" ++ "base64,/9j/4AAQ") = "image/jpeg" /\
  mimeTypeOf "leaf.png" = "".
Proof.
  split.
  - apply (proj1 mimeTypeOf_dataURI "image/jpeg" "base64,/9j/4AAQ"). reflexivity.
  - apply (proj2 mimeTypeOf_dataURI "leaf.png"); reflexivity.
Defined.

(** ** Ids and clock readings *)

Lemma string_of_Z_inj (a b : Z) : string_of_Z a = string_of_Z b -> a = b.
Proof.
  unfold string_of_Z. intros H.
  apply (f_equal NilEmpty.int_of_string) in H. rewrite !NilEmpty.isi in H.
  inversion H as [H']. now apply DecimalZ.to_int_inj.
Qed.

(** X12: ids stand for clock readings.  Two analysis ids are equal exactly
    when the [Date.now()] readings they were made from are, and likewise two
    user ids; an analysis id is never a user id. *)
Theorem ids_of_readings (a b : Z) :
  (analysisId a = analysisId b <-> a = b) /\
  (userId a = userId b <-> a = b) /\
  analysisId a <> userId b.
Proof.
  split; [|split].
  - split; [apply analysisId_inj | now intros ->].
  - split; [|now intros ->].
    unfold userId. simpl. intros H. inversion H. now apply string_of_Z_inj.
  - unfold analysisId, userId. simpl. discriminate.
Qed.

Lemma ids_of_readings_witness :
  analysisId 1700000000000 <> analysisId 1700000000001.
Proof.
  intros H.
  apply (proj1 (proj1 (ids_of_readings 1700000000000 1700000000001))) in H.
  discriminate.
Defined.

(** ** Logging out, and the trust in the session marker *)

(** X13: a logout holds across a reload.  After [handleLogout] the auth page
    is rendered, with the auth error as it was; the registry and the history
    blob are kept; and a page loaded over the store that is left has no
    current user and renders the auth page with no error. *)
Theorem logout_survives_reload (st : AppState) :
  render (handleLogout st) = AuthPage (authError st) /\
  plant_health_users (localStorage (handleLogout st))
  = plant_health_users (localStorage st) /\
  plant_health_analyses (localStorage (handleLogout st))
  = plant_health_analyses (localStorage st) /\
  currentUser (reload (handleLogout st)) = None /\
  render (reload (handleLogout st)) = AuthPage None.
Proof.
  unfold reload, boot, mount, initializeMockUsers, render, handleLogout.
  destruct (localStorage st) as [[users|] marker [blob|]] eqn:E;
    simpl; rewrite E; simpl; repeat split; reflexivity.
Qed.

(** X14: the session marker is trusted as read.  A page loaded over a store
    whose marker names a principal has that principal as current user,
    whatever the registry holds; if its role is [admin] the admin dashboard
    is rendered for it with the stored history, and otherwise the workspace,
    with no image, result or error. *)
Theorem boot_trusts_marker (ls : LocalStorage) (p : User.t) :
  plant_health_currentUser ls = Some p ->
  currentUser (boot ls) = Some p /\
  (User.role p = admin -> render (boot ls) = AdminDashboard p (getAnalyses ls)) /\
  (User.role p = user ->
   render (boot ls) = UserWorkspace p None false None None false).
Proof.
  intros H. unfold boot, mount, initializeMockUsers, render, getAnalyses.
  destruct ls as [[users|] marker [blob|]]; simpl in *; subst marker; simpl;
    (split; [reflexivity|]); split; intros R; rewrite R; reflexivity.
Qed.

Lemma boot_trusts_marker_witness :
  render (boot (mkLocalStorage None
                               (Some (User.mk "x" "mallory@x.com" admin))
                               (Some (historicalAnalyses aliceAnalysed))))
  = AdminDashboard (User.mk "x" "mallory@x.com" admin)
                   (historicalAnalyses aliceAnalysed).
Proof.
  apply (proj1 (proj2 (boot_trusts_marker
                         (mkLocalStorage None
                            (Some (User.mk "x" "mallory@x.com" admin))
                            (Some (historicalAnalyses aliceAnalysed)))
                         (User.mk "x" "mallory@x.com" admin) eq_refl))).
  reflexivity.
Defined.

(** ** The workspace and the guard *)

(** X15: the workspace and the handler agree on whether there is an image.
    When the workspace is rendered, the [hasImage] flag it is given is up
    exactly when a click on analyse passes the guard and starts an attempt;
    the image, flag, result and error it is given are those of the state. *)
Theorem workspace_hasImage (st : AppState) (p : User.t) (img : option string)
        (loading : bool) (result : option AnalysisResult) (err : option string)
        (hasImage : bool) :
  render st = UserWorkspace p img loading result err hasImage ->
  (hasImage = true <-> snd (analyzeClick st) <> None) /\
  currentUser st = Some p /\ User.role p = user /\
  img = imagePreview st /\ loading = isLoading st /\
  result = analysisResult st /\ err = error st.
Proof.
  unfold render. intros H.
  destruct (currentUser st) as [q|] eqn:Q; [|discriminate].
  destruct (User.role q) eqn:R; [|discriminate].
  inversion H; subst. repeat split; try assumption.
  - intros T G. apply analyzeClick_guard in G. destruct G as [G|G]; congruence.
  - intros G. destruct (truthy (imagePreview st)) eqn:T; [reflexivity|].
    exfalso. apply G. apply analyzeClick_guard. now left.
Qed.

Lemma workspace_hasImage_witness :
  (true = true <-> snd (analyzeClick aliceAnalysed) <> None).
Proof.
  apply (workspace_hasImage aliceAnalysed alice (Some leafImage) false
                            (Some blight) None true).
  reflexivity.
Defined.

(* ================================================================= *)
(** * Attempts among other events *)

(** ** Selections of a list and sorted lists *)

Lemma Subseq_refl {A : Type} (l : list A) : Subseq l l.
Proof. induction l; constructor; assumption. Qed.

Lemma Subseq_app_tail {A : Type} (k l t : list A) :
  Subseq k l -> Subseq (k ++ t) (l ++ t).
Proof.
  induction 1; simpl; [apply Subseq_refl | now constructor | now constructor].
Qed.

Lemma Subseq_In {A : Type} (k l : list A) (x : A) :
  Subseq k l -> In x k -> In x l.
Proof.
  induction 1 as [|y k l _ IH|y k l _ IH]; intros Hin.
  - exact Hin.
  - right. now apply IH.
  - destruct Hin as [->|Hin]; [now left | right; now apply IH].
Qed.

Lemma Subseq_sorted {A : Type} (R : A -> A -> Prop) (k l : list A) :
  Subseq k l -> StronglySorted R l -> StronglySorted R k.
Proof.
  induction 1 as [|y k l Hs IH|y k l Hs IH]; intros H.
  - exact H.
  - inversion H; subst. now apply IH.
  - inversion H as [|? ? Hl Hall]; subst. constructor; [now apply IH|].
    rewrite Forall_forall in *. intros x Hx. apply Hall.
    now apply (Subseq_In k l).
Qed.

Lemma sorted_rev {A : Type} (R : A -> A -> Prop) (l : list A) :
  StronglySorted R l -> StronglySorted (fun a b => R b a) (rev l).
Proof.
  induction 1 as [|a l Hs IH Hall]; simpl; [constructor|].
  assert (G : forall k, StronglySorted (fun x y => R y x) k ->
                        Forall (fun x => R a x) k ->
                        StronglySorted (fun x y => R y x) (k ++ [a])).
  { induction k as [|b k IHk]; intros Hk Ha; simpl.
    - constructor; constructor.
    - inversion Hk as [|? ? Hk' Hb]; subst. inversion Ha; subst.
      constructor; [now apply IHk|].
      apply Forall_app. split; [exact Hb | now constructor]. }
  apply G; [exact IH|]. apply Forall_forall. intros x Hx.
  rewrite Forall_forall in Hall. apply Hall. now apply in_rev.
Qed.

Lemma sorted_map {A B : Type} (f : A -> B) (R : B -> B -> Prop) (l : list A) :
  StronglySorted (fun a b => R (f a) (f b)) l <-> StronglySorted R (map f l).
Proof.
  induction l as [|a l IH]; simpl.
  - split; constructor.
  - split; intros H; inversion H as [|? ? Hl Hall]; subst; constructor;
      try (now apply IH).
    + apply Forall_forall. intros y Hy. apply in_map_iff in Hy.
      destruct Hy as (x & <- & Hx). rewrite Forall_forall in Hall. now apply Hall.
    + apply Forall_forall. intros x Hx. rewrite Forall_forall in Hall.
      apply Hall. now apply in_map.
Qed.

Lemma sorted_NoDup {A : Type} (R : A -> A -> Prop) (l : list A) :
  (forall x, ~ R x x) -> StronglySorted R l -> NoDup l.
Proof.
  intros Hirr. induction 1 as [|a l Hs IH Hall]; constructor; [|exact IH].
  intros Hin. rewrite Forall_forall in Hall. apply (Hirr a). now apply Hall.
Qed.

Lemma idLt_irrefl (a : string) : ~ idLt a a.
Proof.
  intros (x & y & Hx & Hy & Hlt). rewrite Hx in Hy. inversion Hy. lia.
Qed.

(** ** Operations as events *)

Lemma react_Analyze (st : AppState) (o : Outcome) (clk : Clock) :
  play (loaded st) (eventsOf (Analyze o clk)) = loaded (handleAnalyzeClick o clk st).
Proof.
  unfold play, loaded, handleAnalyzeClick. simpl.
  destruct (analyzeClick st) as [st1 [c|]]; reflexivity.
Qed.

Lemma run_play (ops : list Op) : forall st,
  play (loaded st) (flat_map eventsOf ops) = loaded (run st ops).
Proof.
  induction ops as [|op ops IH]; intros st; [reflexivity|].
  simpl flat_map. unfold play. rewrite fold_left_app.
  fold (play (loaded st) (eventsOf op)).
  assert (E : play (loaded st) (eventsOf op) = loaded (step st op)).
  { destruct op; try reflexivity. apply react_Analyze. }
  rewrite E. apply IH.
Qed.

Lemma madeAlong_app (es1 : list Event) : forall w es2,
  madeAlong w (es1 ++ es2)
  = (madeAlong w es1 ++ madeAlong (play w es1) es2)%list.
Proof.
  induction es1 as [|e es1 IH]; intros w es2; [reflexivity|].
  simpl. rewrite IH. destruct (made w e); reflexivity.
Qed.

Lemma madeAlong_eventsOf (st : AppState) (op : Op) :
  madeAlong (loaded st) (eventsOf op)
  = match created st op with Some r => [r] | None => [] end.
Proof.
  destruct op as [img|o clk|e p|e p now|]; try reflexivity.
  unfold created, loaded. simpl.
  destruct (analyzeClick st) as [st1 [c|]]; simpl; destruct o; reflexivity.
Qed.

(** Along operations run one at a time, the records made are the records
    created. *)
Lemma madeAlong_run (ops : list Op) : forall st,
  madeAlong (loaded st) (flat_map eventsOf ops) = createdAlong st ops.
Proof.
  induction ops as [|op ops IH]; intros st; [reflexivity|].
  simpl flat_map. rewrite madeAlong_app, madeAlong_eventsOf.
  assert (E : play (loaded st) (eventsOf op) = loaded (step st op)).
  { destruct op; try reflexivity. apply react_Analyze. }
  rewrite E, IH. simpl. destruct (created st op); reflexivity.
Qed.

(** ** What a record is made of *)

Lemma made_fields (w : World) (e : Event) (r : HistoricalAnalysis.t) :
  made w e = Some r ->
  exists n o clk c result,
    e = AttemptSettled n o clk /\
    nth_error (suspended w) n = Some c /\
    madeAt w e = Some clk /\
    r = newAnalysis c result clk /\
    historicalAnalyses (app (react w e)) = r :: c_historicalAnalyses c.
Proof.
  unfold madeAt. destruct e as [img| |n o clk|em pw|em pw now|]; simpl;
    try discriminate.
  destruct o as [err|b err|b res|b res err]; try discriminate;
    (destruct (nth_error (suspended w) n) as [c|] eqn:N; [|discriminate]);
    intros H; inversion H; subst;
    exists n; eexists; exists clk, c, res;
    rewrite ?N; repeat split; reflexivity.
Qed.

Lemma made_none (w : World) (e : Event) :
  made w e = None ->
  madeAt w e = None /\
  historicalAnalyses (app (react w e)) = historicalAnalyses (app w).
Proof.
  unfold madeAt. intros H. rewrite H. split; [reflexivity|].
  destruct e as [img| |n o clk|em pw|em pw now|]; simpl.
  - reflexivity.
  - unfold analyzeClick.
    destruct (imagePreview (app w)) as [img|];
      [destruct (currentUser (app w)); [destruct (truthy (Some img))|]|];
      reflexivity.
  - simpl in H. destruct (nth_error (suspended w) n) as [c|]; [|reflexivity].
    destruct o; try discriminate; reflexivity.
  - unfold handleLogin. destruct (find _ _); reflexivity.
  - unfold handleRegister. destruct (existsb _ _); reflexivity.
  - reflexivity.
Qed.

Lemma madeAlong_clocks (es : list Event) : forall w,
  map HistoricalAnalysis.id (madeAlong w es)
  = map analysisId (map Date_now (clocksAlong w es)) /\
  map HistoricalAnalysis.timestamp (madeAlong w es)
  = map new_Date (clocksAlong w es).
Proof.
  induction es as [|e es IH]; intros w; [split; reflexivity|].
  cbn [madeAlong clocksAlong]. destruct (made w e) as [r|] eqn:M.
  - destruct (made_fields w e r M) as (n & o & clk & c & res & _ & _ & Hat & Hr & _).
    rewrite Hat. cbn [map]. destruct (IH (react w e)) as [I1 I2].
    rewrite I1, I2. subst r. split; reflexivity.
  - destruct (made_none w e M) as [Hat _]. rewrite Hat. apply IH.
Qed.

(** ** The histories in play *)

Lemma analyzeClick_closure (st st1 : AppState) (c : Closure) :
  analyzeClick st = (st1, Some c) ->
  imagePreview st = Some (c_imagePreview c) /\
  currentUser st = Some (c_currentUser c) /\
  c_historicalAnalyses c = historicalAnalyses st /\
  st1 = setAnalysisResult None (setError None (setIsLoading true st)).
Proof.
  unfold analyzeClick.
  destruct (imagePreview st) as [img|]; [|discriminate].
  destruct (currentUser st) as [u|]; [|discriminate].
  destruct (truthy (Some img)); [|discriminate].
  intros H. inversion H; subst. now repeat split.
Qed.

Lemma selection_older (h0 M h : list HistoricalAnalysis.t) (r : HistoricalAnalysis.t) :
  selection h0 M h -> selection h0 (M ++ [r]) h.
Proof.
  intros (kept & Hs & ->). exists kept. split; [|reflexivity].
  rewrite rev_app_distr. simpl. now constructor.
Qed.

Lemma selection_newer (h0 M h : list HistoricalAnalysis.t) (r : HistoricalAnalysis.t) :
  selection h0 M h -> selection h0 (M ++ [r]) (r :: h).
Proof.
  intros (kept & Hs & ->). exists (r :: kept). split; [|reflexivity].
  rewrite rev_app_distr. simpl. now constructor.
Qed.

Lemma Forall_removeNth {A : Type} (P : A -> Prop) (l : list A) : forall n,
  Forall P l -> Forall P (removeNth n l).
Proof.
  induction l as [|x l IH]; intros n H; [destruct n; constructor|].
  inversion H; subst. destruct n; simpl; [assumption|].
  constructor; [assumption | now apply IH].
Qed.

Lemma react_suspended (w : World) (e : Event) (c : Closure) :
  In c (suspended (react w e)) ->
  In c (suspended w) \/ c_historicalAnalyses c = historicalAnalyses (app w).
Proof.
  destruct e as [img| |n o clk|em pw|em pw now|]; simpl; try (now left).
  - destruct (analyzeClick (app w)) as [st1 [c'|]] eqn:E; simpl; [|now left].
    intros Hin. apply in_app_or in Hin. destruct Hin as [Hin|[<-|[]]]; [now left|].
    right. now destruct (analyzeClick_closure _ _ _ E) as (_ & _ & H & _).
  - destruct (nth_error (suspended w) n) as [c'|]; simpl; [|now left].
    intros Hin. left. revert n Hin.
    induction (suspended w) as [|x l IH]; intros n Hin; [destruct n; destruct Hin|].
    destruct n; simpl in Hin; [now right|].
    destruct Hin as [->|Hin]; [now left | right; now apply (IH n)].
Qed.

Lemma react_held (h0 M : list HistoricalAnalysis.t) (w : World) (e : Event) :
  heldHistories h0 M w ->
  heldHistories h0 (M ++ match made w e with Some r => [r] | None => [] end)
                (react w e).
Proof.
  intros [Hst Hsus]. rewrite Forall_forall in Hsus.
  destruct (made w e) as [r|] eqn:Hm.
  - destruct (made_fields w e r Hm) as (n & o & clk & c & res & _ & Hn & _ & _ & Hh).
    split.
    + rewrite Hh. apply selection_newer. apply Hsus. now apply (nth_error_In _ n).
    + apply Forall_forall. intros c' Hin. apply selection_older.
      destruct (react_suspended w e c' Hin) as [H|H]; [now apply Hsus|].
      now rewrite H.
  - rewrite app_nil_r. destruct (made_none w e Hm) as [_ Hh]. split.
    + now rewrite Hh.
    + apply Forall_forall. intros c' Hin.
      destruct (react_suspended w e c' Hin) as [H|H]; [now apply Hsus|].
      now rewrite H.
Qed.

Lemma play_held (es : list Event) : forall h0 M w,
  heldHistories h0 M w ->
  heldHistories h0 (M ++ madeAlong w es) (play w es).
Proof.
  induction es as [|e es IH]; intros h0 M w H.
  - simpl. now rewrite app_nil_r.
  - apply (react_held h0 M w e) in H. apply IH in H.
    change (play w (e :: es)) with (play (react w e) es).
    simpl madeAlong. destruct (made w e) as [r|].
    + now rewrite <- app_assoc in H.
    + now rewrite app_nil_r in H.
Qed.

Lemma play_selection (st : AppState) (es : list Event) :
  exists kept,
    Subseq kept (rev (madeAlong (loaded st) es)) /\
    historicalAnalyses (app (play (loaded st) es))
    = (kept ++ historicalAnalyses st)%list.
Proof.
  assert (H0 : heldHistories (historicalAnalyses st) [] (loaded st)).
  { split; [|constructor]. exists []. split; [constructor | reflexivity]. }
  apply (play_held es) in H0. exact (proj1 H0).
Qed.

(** Whatever orders the records made and the ones of the start in the order
    of their making, orders every history in play from newest to oldest. *)
Lemma play_sorted (R : HistoricalAnalysis.t -> HistoricalAnalysis.t -> Prop)
      (st : AppState) (es : list Event) :
  StronglySorted R (rev (historicalAnalyses st) ++ madeAlong (loaded st) es) ->
  StronglySorted (fun a b => R b a)
                 (historicalAnalyses (app (play (loaded st) es))).
Proof.
  intros H. destruct (play_selection st es) as (kept & Hs & ->).
  apply (Subseq_sorted _ _ (rev (madeAlong (loaded st) es) ++ historicalAnalyses st)).
  - now apply Subseq_app_tail.
  - apply sorted_rev in H. now rewrite rev_app_distr, rev_involutive in H.
Qed.

(** C3 (as amended): after every sequence of events - callbacks and
    settlings of attempts, overlapping or not - the history is a selection
    of the records made by the analyses completed so far, newest first, in
    front of the history of the start; after operations run one at a time it
    is all of them, in insertion order newest first.  When the [Date.now()]
    readings the records are made with increase strictly, from the readings
    in the ids of the history of the start on, the ids of the history are
    pairwise distinct and each carries a larger number than the ids after
    it, so ids increase in creation order. *)
Theorem history_order_and_ids (st : AppState) :
  (forall es,
      exists kept,
        Subseq kept (rev (madeAlong (loaded st) es)) /\
        historicalAnalyses (app (play (loaded st) es))
        = (kept ++ historicalAnalyses st)%list) /\
  (forall ops,
      app (play (loaded st) (flat_map eventsOf ops)) = run st ops /\
      madeAlong (loaded st) (flat_map eventsOf ops) = createdAlong st ops /\
      historicalAnalyses (run st ops)
      = (rev (createdAlong st ops) ++ historicalAnalyses st)%list) /\
  (forall es olds,
      map HistoricalAnalysis.id (historicalAnalyses st) = map analysisId (rev olds) ->
      StronglySorted Z.lt (olds ++ map Date_now (clocksAlong (loaded st) es)) ->
      NoDup (map HistoricalAnalysis.id
                 (historicalAnalyses (app (play (loaded st) es)))) /\
      StronglySorted (fun a b => idLt b a)
                     (map HistoricalAnalysis.id
                          (historicalAnalyses (app (play (loaded st) es))))).
Proof.
  split; [apply play_selection|]. split.
  - intros ops. rewrite run_play. split; [reflexivity|].
    split; [apply madeAlong_run | apply run_history].
  - intros es olds Hold Hsorted.
    assert (S : StronglySorted (fun a b => idLt b a)
                  (map HistoricalAnalysis.id
                       (historicalAnalyses (app (play (loaded st) es))))).
    { apply sorted_map.
      apply (play_sorted (fun a b => idLt (HistoricalAnalysis.id a)
                                          (HistoricalAnalysis.id b))).
      apply sorted_map. rewrite map_app, map_rev, Hold, <- map_rev, rev_involutive.
      rewrite (proj1 (madeAlong_clocks es (loaded st))), <- map_app.
      now apply increasing_readings_ids. }
    split; [|exact S].
    apply (sorted_NoDup (fun a b => idLt b a)); [|exact S].
    intros x. apply idLt_irrefl.
Qed.

Lemma history_order_and_ids_witness :
  NoDup (map HistoricalAnalysis.id
             (historicalAnalyses
                (app (play (loaded aliceAnalysed)
                           [AnalyzeClicked; AnalyzeClicked;
                            AttemptSettled 1 (InferenceResolved "AAAA" blight)
                                           (mkClock 2500 2500);
                            AttemptSettled 0 (PersistRejected "AAAA" blight
                                                              (ThrownError "quota"))
                                           (mkClock 2700 2700)])))).
Proof.
  apply (proj2 (proj2 (history_order_and_ids aliceAnalysed))
               [AnalyzeClicked; AnalyzeClicked;
                AttemptSettled 1 (InferenceResolved "AAAA" blight) (mkClock 2500 2500);
                AttemptSettled 0 (PersistRejected "AAAA" blight (ThrownError "quota"))
                               (mkClock 2700 2700)]
               [2000%Z]).
  - reflexivity.
  - vm_compute. repeat constructor.
Defined.

(** ** How an attempt ends *)

(** C5: when one of the awaited promises of an attempt rejects - the
    inference call, or the decoding before it - then, whatever has happened
    since the click, the error becomes the message of the thrown [Error], or
    the text "An unknown error occurred during analysis." for any other
    thrown value, the loading flag is cleared, no record is made, and the
    history, the store and the captured result are left as they are.  For an
    attempt run from click to exit with nothing in between, that is: no
    result, and the history and the store of before the click.  The captured
    text is not empty unless an [Error] with an empty message was thrown. *)
Theorem handleAnalyzeClick_failure (o : Outcome) (err : Thrown) (clk : Clock) :
  failure o = Some err ->
  let text := match err with
              | ThrownError message => message
              | ThrownOther => "An unknown error occurred during analysis."
              end in
  (forall c st,
      error (settle c o clk st) = Some text /\
      isLoading (settle c o clk st) = false /\
      analysisResult (settle c o clk st) = analysisResult st /\
      historicalAnalyses (settle c o clk st) = historicalAnalyses st /\
      localStorage (settle c o clk st) = localStorage st) /\
  (forall w n, made w (AttemptSettled n o clk) = None) /\
  (forall st u,
      truthy (imagePreview st) = true ->
      currentUser st = Some u ->
      error (handleAnalyzeClick o clk st) = Some text /\
      analysisResult (handleAnalyzeClick o clk st) = None /\
      isLoading (handleAnalyzeClick o clk st) = false /\
      created st (Analyze o clk) = None /\
      historicalAnalyses (handleAnalyzeClick o clk st) = historicalAnalyses st /\
      localStorage (handleAnalyzeClick o clk st) = localStorage st) /\
  (err <> ThrownError "" -> truthy (Some text) = true).
Proof.
  intros Hf text. subst text.
  split; [|split; [|split]].
  - intros c st.
    destruct o as [e|b e|b r|b r e]; simpl in Hf; inversion Hf; subst;
      destruct err; repeat split; reflexivity.
  - intros w n. destruct o as [e|b e|b r|b r e]; simpl in Hf; try discriminate;
      reflexivity.
  - intros st u Himg Hu.
    destruct (analyzeClick_accepts st u Himg Hu) as (img & _ & E).
    unfold handleAnalyzeClick. rewrite E.
    destruct o as [e|b e|b r|b r e]; simpl in Hf; inversion Hf; subst;
      destruct err; repeat split; reflexivity.
  - intros Hne. destruct err as [[|a m]|]; [now contradiction Hne| |]; reflexivity.
Qed.

Lemma handleAnalyzeClick_failure_witness :
  error (handleAnalyzeClick (InferenceRejected "AAAA" (ThrownError "Failed to fetch"))
                            (mkClock 3000 3000) aliceAnalysed)
  = Some "Failed to fetch" /\
  error (handleAnalyzeClick (Base64Rejected ThrownOther)
                            (mkClock 3000 3000) aliceAnalysed)
  = Some "An unknown error occurred during analysis." /\
  historicalAnalyses
    (handleAnalyzeClick (InferenceRejected "AAAA" (ThrownError "Failed to fetch"))
                        (mkClock 3000 3000) aliceAnalysed)
  = historicalAnalyses aliceAnalysed.
Proof.
  destruct (proj1 (proj2 (proj2
             (handleAnalyzeClick_failure
                (InferenceRejected "AAAA" (ThrownError "Failed to fetch"))
                (ThrownError "Failed to fetch") (mkClock 3000 3000) eq_refl)))
             aliceAnalysed alice eq_refl eq_refl)
    as (H1 & _ & _ & _ & H5 & _).
  destruct (proj1 (proj2 (proj2
             (handleAnalyzeClick_failure
                (Base64Rejected ThrownOther) ThrownOther (mkClock 3000 3000)
                eq_refl)))
             aliceAnalysed alice eq_refl eq_refl)
    as (H1' & _).
  split; [exact H1|]. split; [exact H1' | exact H5].
Defined.

(** C10 (as amended): selecting an image clears both the result and the
    error, and so does a click on analyse that passes the guard.  When the
    attempt settles, in whatever state the component then is: if the
    inference resolved and the history was written, the result is set and
    the error is left as it is; if a promise rejected, the error is set and
    the result is left as it is; if the inference resolved but writing the
    history threw, both are set.  So an attempt run from click to exit with
    nothing in between ends with a result and no error, or an error and no
    result, except when the write throws, where it ends with both.  An
    invocation the guard rejects sets the error and leaves the result as it
    was. *)
Theorem result_and_error :
  let text := fun err => match err with
                         | ThrownError message => message
                         | ThrownOther => "An unknown error occurred during analysis."
                         end in
  (forall img st,
      analysisResult (handleImageSelect img st) = None /\
      error (handleImageSelect img st) = None) /\
  (forall st u,
      truthy (imagePreview st) = true -> currentUser st = Some u ->
      analysisResult (fst (analyzeClick st)) = None /\
      error (fst (analyzeClick st)) = None) /\
  (forall c o clk st,
      match o with
      | InferenceResolved _ result =>
          analysisResult (settle c o clk st) = Some result /\
          error (settle c o clk st) = error st
      | PersistRejected _ result err =>
          analysisResult (settle c o clk st) = Some result /\
          error (settle c o clk st) = Some (text err)
      | Base64Rejected err | InferenceRejected _ err =>
          analysisResult (settle c o clk st) = analysisResult st /\
          error (settle c o clk st) = Some (text err)
      end) /\
  (forall st u o clk,
      truthy (imagePreview st) = true -> currentUser st = Some u ->
      match o with
      | InferenceResolved _ result =>
          analysisResult (handleAnalyzeClick o clk st) = Some result /\
          error (handleAnalyzeClick o clk st) = None
      | PersistRejected _ result err =>
          analysisResult (handleAnalyzeClick o clk st) = Some result /\
          error (handleAnalyzeClick o clk st) = Some (text err)
      | Base64Rejected err | InferenceRejected _ err =>
          analysisResult (handleAnalyzeClick o clk st) = None /\
          error (handleAnalyzeClick o clk st) = Some (text err)
      end) /\
  (forall st o clk,
      truthy (imagePreview st) = false \/ currentUser st = None ->
      analysisResult (handleAnalyzeClick o clk st) = analysisResult st /\
      error (handleAnalyzeClick o clk st) = Some "Please select an image first.").
Proof.
  intros text. subst text.
  split; [intros img st; split; reflexivity|].
  split.
  { intros st u Himg Hu.
    destruct (analyzeClick_accepts st u Himg Hu) as (img & _ & E).
    rewrite E. split; reflexivity. }
  split.
  { intros c o clk st. destruct o as [e|b e|b r|b r e];
      try destruct e; split; reflexivity. }
  split.
  { intros st u o clk Himg Hu.
    destruct (analyzeClick_accepts st u Himg Hu) as (img & _ & E).
    unfold handleAnalyzeClick. rewrite E.
    destruct o as [e|b e|b r|b r e]; try destruct e; split; reflexivity. }
  intros st o clk H. unfold handleAnalyzeClick.
  rewrite (analyzeClick_rejects st H). split; reflexivity.
Qed.

Lemma result_and_error_witness :
  (analysisResult (fst (analyzeClick aliceAnalysed)) = None /\
   error (fst (analyzeClick aliceAnalysed)) = None) /\
  (analysisResult
     (handleAnalyzeClick (InferenceResolved "AAAA" blight) (mkClock 1 1) aliceAnalysed)
   = Some blight /\
   error
     (handleAnalyzeClick (InferenceResolved "AAAA" blight) (mkClock 1 1) aliceAnalysed)
   = None) /\
  (analysisResult
     (handleAnalyzeClick (Base64Rejected ThrownOther) (mkClock 1 1)
                         (handleImageSelect None aliceAnalysed))
   = None /\
   error
     (handleAnalyzeClick (Base64Rejected ThrownOther) (mkClock 1 1)
                         (handleImageSelect None aliceAnalysed))
   = Some "Please select an image first.").
Proof.
  split; [|split].
  - apply (proj1 (proj2 result_and_error) aliceAnalysed alice); reflexivity.
  - apply (proj1 (proj2 (proj2 (proj2 result_and_error))) aliceAnalysed alice
                 (InferenceResolved "AAAA" blight) (mkClock 1 1));
      reflexivity.
  - apply (proj2 (proj2 (proj2 (proj2 result_and_error)))
                 (handleImageSelect None aliceAnalysed)
                 (Base64Rejected ThrownOther) (mkClock 1 1)).
    left. reflexivity.
Defined.

(** C10, the claim as written fails: alice registers, selects a leaf and
    clicks analyse, every callback being called from the surface that holds
    it; the inference resolves and the write of the history to the store
    throws; the attempt ends with the result and the error both captured. *)
Lemma result_and_error_counterexample :
  let es := [RegisterSubmitted "alice@x.com" "pw1" 5;
             ImageLoaded (Some leafImage);
             AnalyzeClicked;
             AttemptSettled 0 (PersistRejected "AAAA" blight
                                               (ThrownError "QuotaExceededError"))
                            (mkClock 2000 2000)] in
  feasible (loaded (boot emptyStorage)) es = true /\
  analysisResult (app (play (loaded (boot emptyStorage)) es)) = Some blight /\
  error (app (play (loaded (boot emptyStorage)) es)) = Some "QuotaExceededError" /\
  ~ atMostOne (app (play (loaded (boot emptyStorage)) es)).
Proof.
  split; [vm_compute; reflexivity|]. split; [vm_compute; reflexivity|].
  split; [vm_compute; reflexivity|].
  intros [H|H]; vm_compute in H; discriminate.
Qed.

(** ** The record of a successful analysis *)

Lemma sorted_newest (h : list HistoricalAnalysis.t) :
  StronglySorted (fun a b => (HistoricalAnalysis.timestamp b
                              <= HistoricalAnalysis.timestamp a)%Z) h ->
  newestDominates h.
Proof.
  intros H. destruct h as [|r older]; [exact I|].
  inversion H; subst. assumption.
Qed.

(** C6 (as amended): a click that passes the guard captures the image, the
    principal of the session and the history of that moment.  When the
    inference of the attempt resolves and the history is written, then, in
    whatever state the component is by then, the history becomes one new
    record in front of the captured history, in the state and in the store;
    the record carries the email of the captured principal, the result, the
    captured image, and as timestamp the reading of the wall clock at that
    moment.  So an attempt run from click to exit with nothing in between
    puts exactly one record in front of the history, under the email of the
    principal of the session.  When the wall-clock readings the records are
    made with never decrease, from the timestamps of the history of the
    start on, every history is ordered by timestamp and its newest record
    is no earlier than any other.  When the inference resolves but the write
    of the history throws, the record is in front of the captured history in
    the state all the same, and the store is left as it was. *)
Theorem handleAnalyzeClick_success :
  (forall st u,
      truthy (imagePreview st) = true -> currentUser st = Some u ->
      exists img,
        imagePreview st = Some img /\
        snd (analyzeClick st) = Some (mkClosure img u (historicalAnalyses st))) /\
  (forall c base64 result clk st,
      let r := newAnalysis c result clk in
      let st' := settle c (InferenceResolved base64 result) clk st in
      historicalAnalyses st' = r :: c_historicalAnalyses c /\
      plant_health_analyses (localStorage st') = Some (r :: c_historicalAnalyses c) /\
      HistoricalAnalysis.userEmail r = User.email (c_currentUser c) /\
      HistoricalAnalysis.analysis r = result /\
      HistoricalAnalysis.imageUrl r = c_imagePreview c /\
      HistoricalAnalysis.timestamp r = new_Date clk /\
      analysisResult st' = Some result /\
      isLoading st' = false /\
      currentUser st' = currentUser st) /\
  (forall st u base64 result clk,
      truthy (imagePreview st) = true -> currentUser st = Some u ->
      let st' := handleAnalyzeClick (InferenceResolved base64 result) clk st in
      exists r,
        created st (Analyze (InferenceResolved base64 result) clk) = Some r /\
        historicalAnalyses st' = r :: historicalAnalyses st /\
        plant_health_analyses (localStorage st') = Some (r :: historicalAnalyses st) /\
        HistoricalAnalysis.userEmail r = User.email u /\
        HistoricalAnalysis.analysis r = result /\
        imagePreview st = Some (HistoricalAnalysis.imageUrl r) /\
        HistoricalAnalysis.timestamp r = new_Date clk) /\
  (forall st es,
      StronglySorted Z.le
        (rev (map HistoricalAnalysis.timestamp (historicalAnalyses st))
         ++ map new_Date (clocksAlong (loaded st) es)) ->
      StronglySorted (fun a b => (HistoricalAnalysis.timestamp b
                                  <= HistoricalAnalysis.timestamp a)%Z)
                     (historicalAnalyses (app (play (loaded st) es))) /\
      newestDominates (historicalAnalyses (app (play (loaded st) es)))) /\
  (forall c base64 result err clk st,
      let st' := settle c (PersistRejected base64 result err) clk st in
      historicalAnalyses st' = newAnalysis c result clk :: c_historicalAnalyses c /\
      localStorage st' = localStorage st).
Proof.
  split; [|split; [|split; [|split; [|intros; split; reflexivity]]]].
  - intros st u Himg Hu.
    destruct (analyzeClick_accepts st u Himg Hu) as (img & Hi & E).
    exists img. split; [exact Hi | now rewrite E].
  - intros c base64 result clk st. repeat split; reflexivity.
  - intros st u base64 result clk Himg Hu.
    destruct (handleAnalyzeClick_resolved st u base64 result clk Himg Hu)
      as (img & Hi & Hc & E).
    cbv zeta. rewrite E, Hc. eexists. split; [reflexivity|].
    repeat split; try reflexivity. exact Hi.
  - intros st es H.
    assert (S : StronglySorted
                  (fun a b => (HistoricalAnalysis.timestamp b
                               <= HistoricalAnalysis.timestamp a)%Z)
                  (historicalAnalyses (app (play (loaded st) es)))).
    { apply (play_sorted (fun a b => (HistoricalAnalysis.timestamp a
                                      <= HistoricalAnalysis.timestamp b)%Z)).
      apply sorted_map. rewrite map_app, map_rev.
      now rewrite (proj2 (madeAlong_clocks es (loaded st))). }
    split; [exact S | now apply sorted_newest].
Qed.

Lemma handleAnalyzeClick_success_witness :
  (exists r,
      created aliceAnalysed
              (Analyze (InferenceResolved "AAAA" blight) (mkClock 2500 2501)) = Some r /\
      historicalAnalyses
        (handleAnalyzeClick (InferenceResolved "AAAA" blight) (mkClock 2500 2501)
                            aliceAnalysed)
      = r :: historicalAnalyses aliceAnalysed /\
      HistoricalAnalysis.userEmail r = "alice@x.com" /\
      HistoricalAnalysis.timestamp r = 2501%Z) /\
  newestDominates
    (historicalAnalyses
       (app (play (loaded aliceAnalysed)
                  [AnalyzeClicked;
                   AttemptSettled 0 (InferenceResolved "AAAA" blight)
                                  (mkClock 2500 2501)]))).
Proof.
  split.
  - destruct (proj1 (proj2 (proj2 handleAnalyzeClick_success))
                    aliceAnalysed alice "AAAA" blight (mkClock 2500 2501)
                    eq_refl eq_refl)
      as (r & H1 & H2 & _ & H4 & _ & _ & H7).
    exists r. repeat split; assumption.
  - apply (proj1 (proj2 (proj2 (proj2 handleAnalyzeClick_success))) aliceAnalysed
                 [AnalyzeClicked;
                  AttemptSettled 0 (InferenceResolved "AAAA" blight)
                                 (mkClock 2500 2501)]).
    vm_compute. repeat constructor; discriminate.
Defined.

Lemma newestDominates_timestamps (h : list HistoricalAnalysis.t) (t : Z) (rest : list Z) :
  newestDominates h ->
  map HistoricalAnalysis.timestamp h = t :: rest ->
  Forall (fun x => (x <= t)%Z) rest.
Proof.
  destruct h as [|r older]; [discriminate|].
  simpl. intros H E. inversion E; subst.
  apply Forall_forall. intros x Hx. apply in_map_iff in Hx.
  destruct Hx as (o & <- & Ho). rewrite Forall_forall in H. now apply H.
Qed.

(** C6, the claim as written fails, three times over.  Every callback below
    is called from the surface that holds it.
    - The principal: alice clicks analyse and logs out, bob logs in, and the
      inference resolves: the record made while bob is the principal of the
      session carries the email of alice.
    - The timestamp: after an analysis stamped 2000, one completes while the
      wall clock reads 1000, and is put in front of a later record.
    - The one record in front: two clicks before either attempt settles,
      both resolve; the second to settle replaces the record of the first,
      and the history holds one record for two successful analyses. *)
Lemma success_record_counterexample :
  (let es := [RegisterSubmitted "bob@x.com" "pw3" 3;
              LogoutClicked;
              RegisterSubmitted "alice@x.com" "pw1" 5;
              ImageLoaded (Some leafImage);
              AnalyzeClicked;
              LogoutClicked;
              LoginSubmitted "bob@x.com" "pw3"] in
   let w := play (loaded (boot emptyStorage)) es in
   let w' := react w (AttemptSettled 0 (InferenceResolved "AAAA" blight)
                                     (mkClock 2000 2000)) in
   feasible (loaded (boot emptyStorage))
            (es ++ [AttemptSettled 0 (InferenceResolved "AAAA" blight)
                                   (mkClock 2000 2000)]) = true /\
   option_map User.email (currentUser (app w)) = Some "bob@x.com" /\
   option_map User.email (currentUser (app w')) = Some "bob@x.com" /\
   map HistoricalAnalysis.userEmail (historicalAnalyses (app w')) = ["alice@x.com"]) /\
  (let es := [AnalyzeClicked;
              AttemptSettled 0 (InferenceResolved "AAAA" blight) (mkClock 1000 1000)] in
   feasible (loaded aliceAnalysed) es = true /\
   map HistoricalAnalysis.timestamp
       (historicalAnalyses (app (play (loaded aliceAnalysed) es)))
   = [1000%Z; 2000%Z] /\
   ~ newestDominates (historicalAnalyses (app (play (loaded aliceAnalysed) es)))) /\
  (let es := [AnalyzeClicked; AnalyzeClicked;
              AttemptSettled 0 (InferenceResolved "AAAA" blight) (mkClock 3000 3000);
              AttemptSettled 0 (InferenceResolved "AAAA" blight) (mkClock 4000 4000)] in
   feasible (loaded aliceAnalysed) es = true /\
   List.length (madeAlong (loaded aliceAnalysed) es) = 2%nat /\
   map HistoricalAnalysis.timestamp
       (historicalAnalyses (app (play (loaded aliceAnalysed) es)))
   = [4000%Z; 2000%Z]).
Proof.
  split; [|split].
  - vm_compute. repeat split.
  - split; [vm_compute; reflexivity|].
    assert (E : map HistoricalAnalysis.timestamp
                    (historicalAnalyses
                       (app (play (loaded aliceAnalysed)
                                  [AnalyzeClicked;
                                   AttemptSettled 0 (InferenceResolved "AAAA" blight)
                                                  (mkClock 1000 1000)])))
                = [1000%Z; 2000%Z]) by (vm_compute; reflexivity).
    split; [exact E|].
    intros H. pose proof (newestDominates_timestamps _ _ _ H E) as F.
    inversion F as [|x l Hle _]. lia.
  - vm_compute. repeat split.
Qed.

(* ================================================================= *)
(** * Reloads and attribution, with writes that can fail *)

(** ** Whose records the history holds *)

Lemma jsonAnalyses_email (h : list HistoricalAnalysis.t) (r : HistoricalAnalysis.t) :
  In r (jsonAnalyses h) ->
  exists r0, In r0 h /\ HistoricalAnalysis.userEmail r = HistoricalAnalysis.userEmail r0.
Proof.
  unfold jsonAnalyses. intros H. apply in_map_iff in H.
  destruct H as (r0 & <- & Hin). now exists r0.
Qed.

Lemma created_email (st : AppState) (op : Op) (r : HistoricalAnalysis.t) :
  created st op = Some r ->
  exists u, currentUser st = Some u /\ HistoricalAnalysis.userEmail r = User.email u.
Proof.
  destruct op as [img|o clk|e p|e p now|]; simpl; try discriminate.
  destruct (analyzeClick st) as [st1 [c|]] eqn:E;
    [|destruct o; simpl; discriminate].
  destruct (analyzeClick_closure _ _ _ E) as (_ & Hu & _).
  destruct o as [err|b err|b res|b res err]; simpl; try discriminate;
    intros H; inversion H; subst; now exists (c_currentUser c).
Qed.

(** An operation leaves the history blob alone or writes the history of the
    state to it. *)
Lemma step_blob (st : AppState) (op : Op) :
  plant_health_analyses (localStorage (step st op))
  = plant_health_analyses (localStorage st) \/
  plant_health_analyses (localStorage (step st op))
  = Some (historicalAnalyses (step st op)).
Proof.
  destruct op as [img|o clk|e p|e p now|]; simpl.
  - now left.
  - destruct (handleAnalyzeClick_cases o clk st) as [(img & u & _ & _ & E)|[_ E]];
      rewrite E; [|now left].
    destruct o; [now left | now left | now right | now left].
  - left. unfold handleLogin. destruct (find _ _); reflexivity.
  - left. unfold handleRegister. destruct (existsb _ _); reflexivity.
  - now left.
Qed.

Lemma step_attributed (st : AppState) (op : Op) :
  coherent st -> seededOnly (localStorage st) ->
  attributedState st -> attributed (localStorage st) ->
  attributedState (step st op) /\ attributed (localStorage (step st op)).
Proof.
  intros (_ & Hm) [_ S2] As Al. rewrite Hm in S2.
  assert (Grow : forall x,
             In x (map Account.email (getUsers (localStorage st))) ->
             In x (map Account.email (getUsers (localStorage (step st op))))).
  { intros x Hx. apply in_map_iff in Hx. destruct Hx as (a & <- & Ha).
    apply in_map. now apply step_registry_grows. }
  assert (As' : attributedState (step st op)).
  { intros r Hin. rewrite step_history in Hin.
    destruct (created st op) as [r'|] eqn:Ec; [|now apply Grow, As].
    destruct Hin as [<-|Hin]; [|now apply Grow, As].
    destruct (created_email st op r' Ec) as (u & Hu & ->).
    destruct (S2 u Hu) as (a & Ha & ->). apply Grow.
    apply in_map_iff. now exists a. }
  split; [exact As'|].
  intros r Hin. unfold getAnalyses in Hin.
  destruct (step_blob st op) as [E|E].
  - rewrite E in Hin. now apply Grow, Al.
  - rewrite E in Hin. apply jsonAnalyses_email in Hin.
    destruct Hin as (r0 & Hin & ->). now apply As'.
Qed.

Lemma run_attributed (ops : list Op) : forall st,
  coherent st -> seededOnly (localStorage st) ->
  attributedState st -> attributed (localStorage st) ->
  attributedState (run st ops) /\ attributed (localStorage (run st ops)).
Proof.
  induction ops as [|op ops IH]; intros st C S As Al; [now split|].
  destruct (step_attributed st op C S As Al) as [As' Al'].
  apply (IH (step st op)); try assumption.
  - now apply step_coherent.
  - now apply step_seededOnly.
Qed.

Lemma boot_history (ls : LocalStorage) :
  historicalAnalyses (boot ls) = getAnalyses ls.
Proof.
  destruct ls as [[users|] [marker|] [blob|]]; reflexivity.
Qed.

Lemma boot_attributed (ls : LocalStorage) :
  attributed ls ->
  attributedState (boot ls) /\ attributed (localStorage (boot ls)).
Proof.
  intros A.
  assert (A' : attributed (initializeMockUsers ls)).
  { unfold initializeMockUsers.
    destruct (plant_health_users ls) eqn:E; [exact A|].
    intros r Hin. exfalso. specialize (A r Hin).
    unfold getUsers in A. rewrite E in A. destruct A. }
  split.
  - intros r Hin. rewrite boot_history in Hin. rewrite boot_localStorage.
    apply A'. unfold initializeMockUsers.
    destruct (plant_health_users ls); exact Hin.
  - now rewrite boot_localStorage.
Qed.

Lemma session_attributed (ls : LocalStorage) (ops : list Op) :
  seededOnly ls -> attributed ls ->
  attributedState (run (boot ls) ops) /\ attributed (session ls ops).
Proof.
  intros S A. destruct (boot_attributed ls A) as [As Al].
  apply run_attributed; try assumption; [apply boot_coherent|].
  rewrite boot_localStorage. now apply initializeMockUsers_seededOnly.
Qed.

Lemma sessions_attributed (loads : list (list Op)) : forall ls,
  seededOnly ls -> attributed ls ->
  seededOnly (sessions ls loads) /\ attributed (sessions ls loads).
Proof.
  induction loads as [|ops loads IH]; intros ls S A; [now split|].
  apply (IH (session ls ops)).
  - unfold session. apply run_seededOnly. rewrite boot_localStorage.
    now apply initializeMockUsers_seededOnly.
  - now apply session_attributed.
Qed.

(** X10: every record of the history belongs to a registered account.  In an
    installation that started from an empty store, after any page loads and
    operations run one at a time, each record of the history carries the
    email of a record of the registry. *)
Theorem history_attributed (loads : list (list Op)) (ops : list Op) :
  let st := run (boot (sessions emptyStorage loads)) ops in
  forall r,
    In r (historicalAnalyses st) ->
    exists a, In a (getUsers (localStorage st)) /\
              Account.email a = HistoricalAnalysis.userEmail r.
Proof.
  intros st r Hin.
  assert (E : seededOnly emptyStorage /\ attributed emptyStorage).
  { split; [split; [intros a []|discriminate] | intros x []]. }
  destruct (sessions_attributed loads emptyStorage (proj1 E) (proj2 E)) as [S A].
  destruct (session_attributed _ ops S A) as [As _].
  specialize (As r Hin). apply in_map_iff in As.
  destruct As as (a & Ha & Hina). now exists a.
Qed.

Lemma history_attributed_witness :
  exists a,
    In a (getUsers (localStorage
                      (run (boot (sessions emptyStorage []))
                           [Register "alice@x.com" "pw1" 5;
                            ImageSelect (Some leafImage);
                            Analyze (InferenceResolved "AAAA" blight)
                                    (mkClock 2000 2000)]))) /\
    Account.email a = "alice@x.com".
Proof.
  apply (history_attributed []
           [Register "alice@x.com" "pw1" 5;
            ImageSelect (Some leafImage);
            Analyze (InferenceResolved "AAAA" blight) (mkClock 2000 2000)]
           (HistoricalAnalysis.mk "analysis-2000" "alice@x.com" blight 2000 leafImage)).
  left. reflexivity.
Defined.

(** ** Page reloads *)










